(** * Food-waste management dashboard: the data-access core of [App.py]

    A shallow embedding of the query executor ([run_query]), the generic
    CRUD layer ([create_record], [update_record], [delete_record]) and the
    analysis catalogue ([analysis_query]) of [src/App.py], followed by the
    properties the specification states about them.

    The MySQL driver, pandas and Streamlit are outside the repository.  Their
    behaviour enters the model through the record [Driver]: whether
    [mysql.connector.connect] succeeds, what [cursor.execute] does to the
    store and which row count it leaves, and what [pd.read_sql] returns.
    Everything the Python code itself decides (filtering, statement text,
    order of driver calls, exception handling, reports) is written out.

    What is assumed of the collaborators:
    - a connection is opened with autocommit off (the default of MySQL
      Connector/Python): statements change the connection's own view of
      the store, [conn.commit()] publishes it, [conn.close()] drops it;
    - [conn.cursor()], [conn.commit()], [cursor.close()] and [conn.close()]
      do not raise; [mysql.connector.connect], [cursor.execute] and
      [pd.read_sql] may;
    - [pd.read_sql] does not write to the store;
    - [st.stop()] raises Streamlit's [StopException], which is not an
      [Exception] (it derives from [BaseException]);
    - [st.success], [st.warning] and [st.error] only show their message. *)

From Stdlib Require Import ZArith String Ascii List Bool Lia.
From Stdlib Require Import Floats.SpecFloat.
From stdpp Require Import base list strings.
Import ListNotations.

Local Open Scope string_scope.
Local Open Scope list_scope.
Local Open Scope Z_scope.

(** ** Python values *)

(** The scalars a Streamlit form can put into the [inputs] dictionary
    ([st.text_input] gives [str], [st.number_input] gives [int] or [float],
    [st.date_input] gives [datetime.date]), together with [None] and [bool],
    which the filtering rule also has to classify. *)
Inductive Value : Type :=
| VNone
| VStr (s : string)
| VInt (z : Z)
| VBool (b : bool)
| VFloat (f : spec_float)
| VDate (year month day : Z).

Definition Z_of_bool (b : bool) : Z := if b then 1 else 0.

(** Exact comparison of a float with an integer, as [float.__eq__] does it
    (no rounding of the integer): NaN and the infinities equal no integer. *)
Definition float_eq_Z (f : spec_float) (z : Z) : bool :=
  match f with
  | S754_zero _ => z =? 0
  | S754_finite s m e =>
      let v := if s then Z.neg m else Z.pos m in
      if 0 <=? e then z =? v * 2 ^ e else v =? z * 2 ^ (- e)
  | S754_infinity _ | S754_nan => false
  end.

(** Python's [==] on the values above.  [bool] is a subtype of [int]
    ([False == 0], [True == 1]); numbers compare by numeric value across
    [int], [bool] and [float]; [None], [str] and [date] are equal only to
    values of their own type. *)
Definition py_eq (a b : Value) : bool :=
  match a, b with
  | VNone, VNone => true
  | VStr s, VStr t => String.eqb s t
  | VInt x, VInt y => x =? y
  | VInt x, VBool c => x =? Z_of_bool c
  | VBool c, VInt y => Z_of_bool c =? y
  | VBool c, VBool d => Bool.eqb c d
  | VFloat f, VInt y => float_eq_Z f y
  | VInt x, VFloat g => float_eq_Z g x
  | VFloat f, VBool d => float_eq_Z f (Z_of_bool d)
  | VBool c, VFloat g => float_eq_Z g (Z_of_bool c)
  | VFloat f, VFloat g => SFeqb f g
  | VDate y m d, VDate y' m' d' => (y =? y') && (m =? m') && (d =? d')
  | _, _ => false
  end.

(** [x in l] for a list [l]: some element is equal to [x].  (The identity
    test that [in] tries first only ever agrees with [==] on these values.) *)
Definition py_in (x : Value) (l : list Value) : bool :=
  existsb (py_eq x) l.

(** Truth value of an object, as [if param] evaluates it. *)
Definition truthy (v : Value) : bool :=
  match v with
  | VNone => false
  | VStr s => negb (String.eqb s "")
  | VInt z => negb (z =? 0)
  | VBool b => b
  | VFloat f => negb (float_eq_Z f 0)
  | VDate _ _ _ => true
  end.

(** ** Field maps and statement text *)

(** A [dict] from column name to value; insertion order is the order of the
    columns in the statement, so the dictionary is kept as its item list. *)
Definition Fields : Type := list (string * Value).

(** [{k: v for k, v in inputs.items() if v not in [None, "", 0]}] *)
Definition filter_inputs (inputs : Fields) : Fields :=
  List.filter (fun kv => negb (py_in (snd kv) [VNone; VStr ""; VInt 0])) inputs.

Definition keys (d : Fields) : list string := List.map fst d.
Definition values (d : Fields) : list Value := List.map snd d.

(** [sep.join(parts)] *)
Fixpoint join (sep : string) (parts : list string) : string :=
  match parts with
  | [] => ""
  | [p] => p
  | p :: rest => p +:+ sep +:+ join sep rest
  end.

(** [f"INSERT INTO {table_name} ({columns}) VALUES ({placeholders})"] *)
Definition insert_sql (table_name : string) (filtered_inputs : Fields) : string :=
  let columns := join ", " (keys filtered_inputs) in
  let placeholders := join ", " (List.repeat "%s" (length filtered_inputs)) in
  "INSERT INTO " +:+ table_name +:+ " (" +:+ columns +:+ ") VALUES (" +:+ placeholders +:+ ")".

(** [f"UPDATE {table_name} SET {set_clause} WHERE {pk}=%s"] *)
Definition update_sql (table_name pk : string) (filtered_inputs : Fields) : string :=
  let set_clause := join ", " (List.map (fun k => k +:+ "=%s") (keys filtered_inputs)) in
  "UPDATE " +:+ table_name +:+ " SET " +:+ set_clause +:+ " WHERE " +:+ pk +:+ "=%s".

(** [f"DELETE FROM {table_name} WHERE {pk}=%s"] *)
Definition delete_sql (table_name pk : string) : string :=
  "DELETE FROM " +:+ table_name +:+ " WHERE " +:+ pk +:+ "=%s".

Definition delete_claims_sql : string := "DELETE FROM Claims WHERE Food_ID=%s".

(** The [primary_keys] dictionary of [update_record] and [delete_record]. *)
Definition primary_keys : list (string * string) :=
  [ ("Food_Listings", "Food_ID");
    ("Providers", "Provider_ID");
    ("Receivers", "Receiver_ID");
    ("Claims", "Claim_ID") ].

(** [d[key]] on a dictionary with string keys: [None] stands for [KeyError]. *)
Fixpoint dict_get {A : Type} (d : list (string * A)) (key : string) : option A :=
  match d with
  | [] => None
  | (k, v) :: rest => if String.eqb k key then Some v else dict_get rest key
  end.

Definition dict_has {A : Type} (d : list (string * A)) (key : string) : bool :=
  match dict_get d key with Some _ => true | None => false end.

(** ** Tables *)

(** A [pandas.DataFrame]: column labels and rows. *)
Record Table : Type := { columns : list string; rows : list (list Value) }.

(** [pd.DataFrame()] *)
Definition empty_table : Table := {| columns := []; rows := [] |}.

(** [df.empty]: some axis has length 0. *)
Definition df_empty (df : Table) : bool :=
  Nat.eqb (length (columns df)) 0 || Nat.eqb (length (rows df)) 0.

(** ** Exceptions and reports *)

(** Exceptions below [Exception].  [mysql.connector.Error] is the class the
    CRUD handlers single out; [KeyError] is what a failed dictionary lookup
    raises; anything else is [OtherException]. *)
Inductive Exn : Type :=
| MySQLError (msg : string)
| KeyError (key : string)
| OtherException (msg : string).

Definition is_mysql_error (e : Exn) : bool :=
  match e with MySQLError _ => true | _ => false end.

(** What unwinds the stack: an [Exception], or the [StopException] that
    [st.stop()] raises.  The latter derives from [BaseException], so no
    [except Exception] clause catches it. *)
Inductive Raised : Type :=
| Exc (e : Exn)
| StopException.

(** The pieces of an f-string message, before formatting: literal text, a
    formatted value, the [str] of a caught exception. *)
Inductive Frag : Type :=
| Lit (s : string)
| Fmt (v : Value)
| FmtExn (e : Exn).

Inductive Level : Type := Success | Warning | Error.

(** One call of [st.success], [st.warning] or [st.error]. *)
Record Report : Type := { level : Level; message : list Frag }.

(** ** The store, its connections and the trace of driver calls *)

(** Everything observable that a core operation does, in order. *)
Inductive Event : Type :=
| EvConnect (conn : nat)
| EvCursor (conn : nat)
| EvExecute (conn : nat) (sql : string) (params : list Value)
| EvReadSql (conn : nat) (sql : string) (params : option (list Value))
| EvCommit (conn : nat)
| EvCursorClose (conn : nat)
| EvClose (conn : nat)
| EvReport (r : Report).

Inductive ConnectResult : Type :=
| ConnectOk
| ConnectRaise (e : Exn).

Inductive ExecResult (Store : Type) : Type :=
| ExecOk (s' : Store) (affected : Z)
| ExecRaise (e : Exn).
Arguments ExecOk {Store} s' affected.
Arguments ExecRaise {Store} e.

Inductive ReadResult : Type :=
| ReadOk (df : Table)
| ReadRaise (e : Exn).

(** The external collaborators.  [Store] is the content of the database. *)
Record Driver (Store : Type) : Type := {
  (** [mysql.connector.connect(...)] with the configured secrets *)
  mysql_connect : ConnectResult;
  (** [cursor.execute(sql, params)] on the connection's view of the store:
      the view after the statement and [cursor.rowcount], or an exception *)
  execute : Store -> string -> list Value -> ExecResult Store;
  (** [pd.read_sql(sql, conn, params=params)] on the connection's view *)
  read_sql : Store -> string -> option (list Value) -> ReadResult
}.
Arguments mysql_connect {Store} _.
Arguments execute {Store} _ _ _ _.
Arguments read_sql {Store} _ _ _ _.

(** A connection with its (single) cursor.  MySQL Connector/Python opens
    connections with autocommit off: statements change [pending], the
    connection's own view, and reach the database only at [commit];
    closing the connection discards what was not committed. *)
Record ConnState (Store : Type) : Type := {
  conn_open : bool;
  cursor_open : bool;
  pending : Store;
  rowcount : Z
}.
Arguments conn_open {Store} _.
Arguments cursor_open {Store} _.
Arguments pending {Store} _.
Arguments rowcount {Store} _.

Record World (Store : Type) : Type := {
  db : Store;                       (* committed content of the database *)
  conns : list (ConnState Store);   (* every connection opened so far *)
  trace : list Event                (* driver calls and reports, oldest first *)
}.
Arguments db {Store} _.
Arguments conns {Store} _.
Arguments trace {Store} _.

(** ** A state-and-exception monad for Python function bodies *)

Inductive Result (A : Type) : Type :=
| Ret (a : A)
| Raise (r : Raised).
Arguments Ret {A} a.
Arguments Raise {A} r.

Definition M (S A : Type) : Type := S -> Result A * S.

Definition ret {S A : Type} (a : A) : M S A := fun s => (Ret a, s).

Definition bind {S A B : Type} (m : M S A) (k : A -> M S B) : M S B :=
  fun s => match m s with
           | (Ret a, s') => k a s'
           | (Raise r, s') => (Raise r, s')
           end.

Definition raise {S A : Type} (e : Exn) : M S A := fun s => (Raise (Exc e), s).

(** [try: m  except Exception as e: h e] *)
Definition try_except {S A : Type} (m : M S A) (h : Exn -> M S A) : M S A :=
  fun s => match m s with
           | (Raise (Exc e), s') => h e s'
           | other => other
           end.

(** [try: m  finally: f].  The [finally] block runs on every exit; what [m]
    returned or raised is kept unless [f] itself raises. *)
Definition try_finally {S A : Type} (m : M S A) (f : M S unit) : M S A :=
  fun s => match m s with
           | (r, s') => match f s' with
                        | (Ret _, s'') => (r, s'')
                        | (Raise x, s'') => (Raise x, s'')
                        end
           end.

Declare Scope py_scope.
Delimit Scope py_scope with py.
Notation "x <- m ;; k" := (bind m (fun x => k))
  (at level 100, m at next level, right associativity) : py_scope.
Notation "m ;; k" := (bind m (fun _ => k))
  (at level 100, right associativity) : py_scope.

(** The local variables of a CRUD function that its [finally] block asks
    about with ['cursor' in locals()] and ['conn' in locals()]. *)
Record Locals : Type := { l_conn : option nat; l_cursor : option nat }.

Definition no_locals : Locals := {| l_conn := None; l_cursor := None |}.

Definition lift {L W A : Type} (m : M W A) : M (L * W) A :=
  fun s => match m (snd s) with (r, w') => (r, (fst s, w')) end.

(** A function call: the body runs on a fresh frame, dropped on exit. *)
Definition call {L W A : Type} (frame : L) (body : M (L * W) A) : M W A :=
  fun w => match body (frame, w) with (r, s') => (r, snd s') end.

Definition locals {W : Type} : M (Locals * W) Locals :=
  fun s => (Ret (fst s), s).

Definition assign_conn {W : Type} (c : nat) : M (Locals * W) unit :=
  fun s => (Ret tt, ({| l_conn := Some c; l_cursor := l_cursor (fst s) |}, snd s)).

Definition assign_cursor {W : Type} (c : nat) : M (Locals * W) unit :=
  fun s => (Ret tt, ({| l_conn := l_conn (fst s); l_cursor := Some c |}, snd s)).

(** ** Driver calls and Streamlit calls as monadic primitives *)

Section Core.

Context {Store : Type} (drv : Driver Store).

Local Open Scope py_scope.

Definition log (e : Event) (w : World Store) : World Store :=
  {| db := db w; conns := conns w; trace := trace w ++ [e] |}.

Definition set_conns (cs : list (ConnState Store)) (w : World Store) : World Store :=
  {| db := db w; conns := cs; trace := trace w |}.

Definition emit (e : Event) : M (World Store) unit :=
  fun w => (Ret tt, log e w).

Definition st_success (msg : list Frag) : M (World Store) unit :=
  emit (EvReport {| level := Success; message := msg |}).

Definition st_warning (msg : list Frag) : M (World Store) unit :=
  emit (EvReport {| level := Warning; message := msg |}).

Definition st_error (msg : list Frag) : M (World Store) unit :=
  emit (EvReport {| level := Error; message := msg |}).

(** [st.stop()]: the script run ends here. *)
Definition st_stop {A : Type} : M (World Store) A :=
  fun w => (Raise StopException, w).

(** A connection just opened: it sees the committed database, has no
    cursor yet, and [rowcount] is -1 until a statement has run. *)
Definition new_conn (s : Store) : ConnState Store :=
  {| conn_open := true; cursor_open := false; pending := s; rowcount := -1 |}.

(** [mysql.connector.connect(...)] *)
Definition connector_connect : M (World Store) nat :=
  fun w => match mysql_connect drv with
           | ConnectOk =>
               let c := length (conns w) in
               (Ret c, log (EvConnect c) (set_conns (conns w ++ [new_conn (db w)]) w))
           | ConnectRaise e => (Raise (Exc e), w)
           end.

(** [conn.cursor()] *)
Definition conn_cursor (c : nat) : M (World Store) nat :=
  fun w =>
    (Ret c,
     log (EvCursor c)
         (set_conns (alter (fun st => {| conn_open := conn_open st; cursor_open := true;
                                         pending := pending st; rowcount := rowcount st |})
                           c (conns w)) w)).

Definition no_connection {A : Type} : M (World Store) A :=
  raise (OtherException "no such connection").

(** [cursor.execute(sql, params)] *)
Definition cursor_execute (c : nat) (sql : string) (params : list Value)
  : M (World Store) unit :=
  fun w =>
    match conns w !! c with
    | None => no_connection w
    | Some st =>
        let w1 := log (EvExecute c sql params) w in
        match execute drv (pending st) sql params with
        | ExecOk s' n =>
            (Ret tt,
             set_conns (<[c := {| conn_open := conn_open st; cursor_open := cursor_open st;
                                  pending := s'; rowcount := n |}]> (conns w1)) w1)
        | ExecRaise e => (Raise (Exc e), w1)
        end
    end.

(** [cursor.rowcount] *)
Definition cursor_rowcount (c : nat) : M (World Store) Z :=
  fun w =>
    match conns w !! c with
    | None => no_connection w
    | Some st => (Ret (rowcount st), w)
    end.

(** [conn.commit()]: the connection's view becomes the database. *)
Definition conn_commit (c : nat) : M (World Store) unit :=
  fun w =>
    match conns w !! c with
    | None => no_connection w
    | Some st =>
        (Ret tt, {| db := pending st; conns := conns w; trace := trace w ++ [EvCommit c] |})
    end.

(** [cursor.close()] *)
Definition cursor_close (c : nat) : M (World Store) unit :=
  fun w =>
    (Ret tt,
     log (EvCursorClose c)
         (set_conns (alter (fun st => {| conn_open := conn_open st; cursor_open := false;
                                         pending := pending st; rowcount := rowcount st |})
                           c (conns w)) w)).

(** [conn.close()] *)
Definition conn_close (c : nat) : M (World Store) unit :=
  fun w =>
    (Ret tt,
     log (EvClose c)
         (set_conns (alter (fun st => {| conn_open := false; cursor_open := cursor_open st;
                                         pending := pending st; rowcount := rowcount st |})
                           c (conns w)) w)).

(** [pd.read_sql(sql, conn, params=params)] *)
Definition pd_read_sql (sql : string) (c : nat) (params : option (list Value))
  : M (World Store) Table :=
  fun w =>
    match conns w !! c with
    | None => no_connection w
    | Some st =>
        let w1 := log (EvReadSql c sql params) w in
        match read_sql drv (pending st) sql params with
        | ReadOk df => (Ret df, w1)
        | ReadRaise e => (Raise (Exc e), w1)
        end
    end.

(** ** The functions of [App.py] *)

(** [get_db_connection]: on any failure the error is shown and the script
    run is stopped. *)
Definition get_db_connection : M (World Store) nat :=
  try_except connector_connect
    (fun e => st_error [Lit "Error connecting to the database: "; FmtExn e] ;;
              st_stop).

(** [run_query(query, params=None)] *)
Definition run_query (query : string) (params : option (list Value))
  : M (World Store) Table :=
  try_except
    (conn <- get_db_connection ;;
     df <- pd_read_sql query conn params ;;
     conn_close conn ;;
     ret df)
    (fun e => st_error [Lit "Query Error: "; FmtExn e] ;;
              ret empty_table).

(** The [finally] block of the three CRUD functions. *)
Definition close_locals : M (Locals * World Store) unit :=
  l <- locals ;;
  match l_cursor l with Some cursor => lift (cursor_close cursor) | None => ret tt end ;;
  match l_conn l with Some conn => lift (conn_close conn) | None => ret tt end.

Definition is_empty {A : Type} (d : list A) : bool :=
  match d with [] => true | _ => false end.

(** [create_record(table_name, inputs)] *)
Definition create_record (table_name : string) (inputs : Fields)
  : M (World Store) unit :=
  call no_locals
    (try_finally
       (try_except
          (conn <- lift get_db_connection ;;
           assign_conn conn ;;
           cursor <- lift (conn_cursor conn) ;;
           assign_cursor cursor ;;
           let filtered_inputs := filter_inputs inputs in
           if is_empty filtered_inputs then
             lift (st_warning [Lit "No data to insert"])
           else
             let query := insert_sql table_name filtered_inputs in
             lift (cursor_execute cursor query (values filtered_inputs)) ;;
             lift (conn_commit conn) ;;
             lift (st_success [Lit "Record created successfully in "; Lit table_name]))
          (fun e =>
             if is_mysql_error e
             then lift (st_error [Lit "Error creating record: "; FmtExn e])
             else lift (st_error [Lit "Unexpected error: "; FmtExn e])))
       close_locals).

(** [primary_keys[table_name]] *)
Definition primary_key_of {S : Type} (table_name : string) : M S string :=
  match dict_get primary_keys table_name with
  | Some pk => ret pk
  | None => raise (KeyError table_name)
  end.

(** [update_record(table_name, record_id, inputs)] *)
Definition update_record (table_name : string) (record_id : Value) (inputs : Fields)
  : M (World Store) unit :=
  call no_locals
    (try_finally
       (try_except
          (conn <- lift get_db_connection ;;
           assign_conn conn ;;
           cursor <- lift (conn_cursor conn) ;;
           assign_cursor cursor ;;
           pk <- primary_key_of table_name ;;
           let filtered_inputs := filter_inputs inputs in
           if is_empty filtered_inputs then
             lift (st_warning [Lit "No fields to update"])
           else
             let query := update_sql table_name pk filtered_inputs in
             lift (cursor_execute cursor query (values filtered_inputs ++ [record_id])) ;;
             lift (conn_commit conn) ;;
             n <- lift (cursor_rowcount cursor) ;;
             if 0 <? n then
               lift (st_success [Lit "Record "; Fmt record_id; Lit " updated successfully"])
             else
               lift (st_warning [Lit "No record found with "; Lit pk; Lit " = ";
                                 Fmt record_id]))
          (fun e =>
             if is_mysql_error e
             then lift (st_error [Lit "Error updating record: "; FmtExn e])
             else lift (st_error [Lit "Unexpected error: "; FmtExn e])))
       close_locals).

(** [delete_record(table_name, record_id)] *)
Definition delete_record (table_name : string) (record_id : Value)
  : M (World Store) unit :=
  call no_locals
    (try_finally
       (try_except
          (conn <- lift get_db_connection ;;
           assign_conn conn ;;
           cursor <- lift (conn_cursor conn) ;;
           assign_cursor cursor ;;
           pk <- primary_key_of table_name ;;
           (if String.eqb table_name "Food_Listings" then
              lift (cursor_execute cursor delete_claims_sql [record_id])
            else ret tt) ;;
           lift (cursor_execute cursor (delete_sql table_name pk) [record_id]) ;;
           lift (conn_commit conn) ;;
           n <- lift (cursor_rowcount cursor) ;;
           if 0 <? n then
             lift (st_success [Lit "Record "; Fmt record_id;
                               Lit " deleted successfully from "; Lit table_name])
           else
             lift (st_warning [Lit "No record found with "; Lit pk; Lit " = ";
                               Fmt record_id]))
          (fun e =>
             if is_mysql_error e
             then lift (st_error [Lit "Error deleting record: "; FmtExn e])
             else lift (st_error [Lit "Unexpected error: "; FmtExn e])))
       close_locals).


End Core.

(** ** The analysis catalogue *)

(** A Plotly Express figure, kept as the arguments it was built from:
    chart rendering itself is outside the repository. *)
Inductive ChartKind : Type := Bar | Pie.

Record Chart : Type := {
  chart_kind : ChartKind;
  chart_data : Table;
  chart_x : string;              (* [x=] of [px.bar], [names=] of [px.pie] *)
  chart_y : list string;         (* [y=] of [px.bar], [values=] of [px.pie] *)
  chart_barmode : option string;
  chart_title : string;
  chart_color : option string;
  chart_palette : string         (* [color_discrete_sequence=px.colors.<...>] *)
}.

Definition px_bar (df : Table) (x : string) (y : list string) (barmode : option string)
    (title : string) (color : option string) (palette : string) : Chart :=
  {| chart_kind := Bar; chart_data := df; chart_x := x; chart_y := y;
     chart_barmode := barmode; chart_title := title; chart_color := color;
     chart_palette := palette |}.

Definition px_pie (df : Table) (names : string) (vals : string)
    (title : string) (color : option string) (palette : string) : Chart :=
  {| chart_kind := Pie; chart_data := df; chart_x := names; chart_y := [vals];
     chart_barmode := None; chart_title := title; chart_color := color;
     chart_palette := palette |}.

(** The [queries] dictionary of [analysis_query]: name to SQL text as written
    in the source (the triple-quoted texts keep their line breaks and
    indentation). *)
Definition queries : list (string * string) :=
  [
  ("Providers & Receivers by City",
   "
            SELECT City,
                   (SELECT COUNT(*) FROM Providers p2 WHERE p2.City = p.City) AS Providers_Count,
                   (SELECT COUNT(*) FROM Receivers r WHERE r.City = p.City) AS Receivers_Count
            FROM Providers p
            GROUP BY City;
        ");
  ("Top Food Provider Type by Quantity",
   "
            SELECT Type, SUM(f.Quantity) AS Total_Quantity
            FROM Providers p
            JOIN Food_Listings f ON p.Provider_ID=f.Provider_ID
            GROUP BY Type
            ORDER BY Total_Quantity DESC
            LIMIT 5;
        ");
  ("Provider Contact Info by City",
   "
            SELECT Name, Contact, Address
            FROM Providers
            WHERE City = %s;
        ");
  ("Top Receivers by Claimed Food",
   "
            SELECT r.Name, r.Contact, SUM(f.Quantity) AS Total_Claimed
            FROM Receivers r
            JOIN Claims c ON r.Receiver_ID=c.Receiver_ID
            JOIN Food_Listings f ON c.Food_ID=f.Food_ID
            GROUP BY r.Receiver_ID
            ORDER BY Total_Claimed DESC
            LIMIT 10;
        ");
  ("Total Food Quantity Available",
   "SELECT SUM(Quantity) AS Total_Food_Quantity FROM Food_Listings;");
  ("City with Most Food Listings",
   "
            SELECT p.City, COUNT(*) AS Listings_Count
            FROM Providers p
            JOIN Food_Listings f ON p.Provider_ID = f.Provider_ID
            GROUP BY p.City
            ORDER BY Listings_Count DESC
            LIMIT 1;
        ");
  ("Top Food Types Available",
   "
            SELECT Food_Type, COUNT(*) AS Count
            FROM Food_Listings
            GROUP BY Food_Type
            ORDER BY Count DESC
            LIMIT 5;
        ");
  ("Claims Count per Food Item",
   "
            SELECT f.Food_Name, COUNT(*) AS Claims_Count
            FROM Food_Listings f
            JOIN Claims c ON f.Food_ID = c.Food_ID
            GROUP BY f.Food_ID;
        ");
  ("Top Provider by Successful Claims",
   "
            SELECT p.Name, COUNT(*) AS Successful_Claims
            FROM Providers p
            JOIN Food_Listings f ON p.Provider_ID = f.Provider_ID
            JOIN Claims c ON f.Food_ID = c.Food_ID
            WHERE c.Status = 'Completed'
            GROUP BY p.Provider_ID
            ORDER BY Successful_Claims DESC
            LIMIT 1;
        ");
  ("Claims Status Percentage",
   "
            SELECT Status, 
                   COUNT(*) AS Count,
                   ROUND(100 * COUNT(*) / (SELECT COUNT(*) FROM Claims), 2) AS Percentage
            FROM Claims
            GROUP BY Status;
        ");
  ("Avg Quantity Claimed per Receiver",
   "
            SELECT r.Name, AVG(f.Quantity) AS Avg_Quantity_Claimed
            FROM Receivers r
            JOIN Claims c ON r.Receiver_ID = c.Receiver_ID
            JOIN Food_Listings f ON c.Food_ID = f.Food_ID
            GROUP BY r.Receiver_ID;
        ");
  ("Most Claimed Meal Type",
   "
            SELECT f.Meal_Type, COUNT(*) AS Claims_Count
            FROM Food_Listings f
            JOIN Claims c ON f.Food_ID = c.Food_ID
            GROUP BY f.Meal_Type
            ORDER BY Claims_Count DESC;
        ");
  ("Total Food Donated by Provider",
   "
            SELECT p.Name, SUM(f.Quantity) AS Total_Quantity_Donated
            FROM Providers p
            JOIN Food_Listings f ON p.Provider_ID = f.Provider_ID
            GROUP BY p.Provider_ID
            ORDER BY Total_Quantity_Donated DESC;
        ");
  ("Top Cities by Claimed Food Quantity",
   "
            SELECT p.City, SUM(f.Quantity) AS Total_Claimed
            FROM Providers p
            JOIN Food_Listings f ON p.Provider_ID = f.Provider_ID
            JOIN Claims c ON f.Food_ID = c.Food_ID
            WHERE c.Status='Completed'
            GROUP BY p.City
            ORDER BY Total_Claimed DESC
            LIMIT 5;
        ");
  ("Providers with Most Food Listings",
   "
            SELECT p.Name, COUNT(f.Food_ID) AS Listings_Count
            FROM Providers p
            JOIN Food_Listings f ON p.Provider_ID = f.Provider_ID
            GROUP BY p.Provider_ID
            ORDER BY Listings_Count DESC
            LIMIT 5;
        ");
  ("Expired or Soon-to-Expire Food Items",
   "
            SELECT Food_Name, Quantity, Expiry_Date, Location
            FROM Food_Listings
            WHERE Expiry_Date <= DATE_ADD(CURDATE(), INTERVAL 2 DAY)
            ORDER BY Expiry_Date ASC;
        ")
  ].

(** The [charts] dictionary of [analysis_query]: name to chart rule. *)
Definition charts : list (string * (Table -> Chart)) :=
  [
  ("Providers & Receivers by City",
   fun df => px_bar df "City" ["Providers_Count"; "Receivers_Count"] (Some "group")
               "Number of Providers and Receivers by City"
               None "qualitative.Pastel");
  ("Top Food Provider Type by Quantity",
   fun df => px_bar df "Type" ["Total_Quantity"] None
               "Top Food Provider Types by Quantity"
               (Some "Type") "qualitative.Set2");
  ("Top Receivers by Claimed Food",
   fun df => px_bar df "Name" ["Total_Claimed"] None
               "Top Receivers by Claimed Food"
               (Some "Name") "qualitative.Vivid");
  ("Top Food Types Available",
   fun df => px_bar df "Food_Type" ["Count"] None
               "Top Food Types Available"
               (Some "Food_Type") "qualitative.Pastel1");
  ("Avg Quantity Claimed per Receiver",
   fun df => px_bar df "Name" ["Avg_Quantity_Claimed"] None
               "Average Quantity Claimed per Receiver"
               (Some "Name") "qualitative.Pastel");
  ("Claims Status Percentage",
   fun df => px_pie df "Status" "Percentage"
               "Claims Status Percentage"
               (Some "Status") "sequential.RdBu");
  ("Claims Count per Food Item",
   fun df => px_bar df "Food_Name" ["Claims_Count"] None
               "Claims Count per Food Item"
               (Some "Food_Name") "qualitative.Set3");
  ("Most Claimed Meal Type",
   fun df => px_bar df "Meal_Type" ["Claims_Count"] None
               "Most Claimed Meal Type"
               (Some "Meal_Type") "qualitative.Dark24");
  ("Total Food Donated by Provider",
   fun df => px_bar df "Name" ["Total_Quantity_Donated"] None
               "Total Food Donated by Provider"
               (Some "Name") "qualitative.Bold");
  ("Top Cities by Claimed Food Quantity",
   fun df => px_bar df "City" ["Total_Claimed"] None
               "Top Cities by Claimed Food Quantity"
               (Some "City") "qualitative.Prism");
  ("Providers with Most Food Listings",
   fun df => px_bar df "Name" ["Listings_Count"] None
               "Providers with Most Food Listings"
               (Some "Name") "qualitative.Set3");
  ("Expired or Soon-to-Expire Food Items",
   fun df => px_bar df "Food_Name" ["Quantity"] None
               "Expired or Soon-to-Expire Food Items"
               (Some "Food_Name") "sequential.Agsunset")
  ].

Section Analysis.

Context {Store : Type} (drv : Driver Store).

Local Open Scope py_scope.

(** [analysis_query(option, param=None)]; the argument [option] is called
    [name] here.  The result is the pair [(df, fig)]; [None] in either
    component is Python's [None]. *)
Definition analysis_query (name : string) (param : Value)
  : M (World Store) (option Table * option Chart) :=
  match dict_get queries name with
  | Some sql =>
      df <- run_query drv sql (if truthy param then Some [param] else None) ;;
      let fig :=
        match dict_get charts name with
        | Some rule => if negb (df_empty df) then Some (rule df) else None
        | None => None
        end in
      ret (Some df, fig)
  | None => ret (None, None)
  end.

End Analysis.

(** ** Observations on a trace *)

(** A statement as the store receives it: text and bound parameters
    ([None]: no parameters were passed). *)
Definition Statement : Type := string * option (list Value).

Definition statement_of (e : Event) : option Statement :=
  match e with
  | EvExecute _ sql params => Some (sql, Some params)
  | EvReadSql _ sql params => Some (sql, params)
  | _ => None
  end.

Definition report_of (e : Event) : option Report :=
  match e with EvReport r => Some r | _ => None end.

Definition is_commit (e : Event) : bool :=
  match e with EvCommit _ => true | _ => false end.

(** The statements sent to the store, the reports shown to the user and
    the number of commits, in a trace. *)
Definition sent (tr : list Event) : list Statement := omap statement_of tr.
Definition reports (tr : list Event) : list Report := omap report_of tr.
Definition commits (tr : list Event) : nat := length (List.filter is_commit tr).

(** Is connection [c] still open in world [w]? *)
Definition is_open {Store : Type} (w : World Store) (c : nat) : bool :=
  match conns w !! c with
  | Some st => conn_open st
  | None => false
  end.

(** The world after an operation that opened one connection: the database
    holds [s], the connection ends in state [c], and [evs] happened. *)
Definition after {Store : Type} (w : World Store) (s : Store) (c : ConnState Store)
    (evs : list Event) : World Store :=
  {| db := s; conns := conns w ++ [c]; trace := trace w ++ evs |}.

Definition closed_conn {Store : Type} (s : Store) (n : Z) : ConnState Store :=
  {| conn_open := false; cursor_open := false; pending := s; rowcount := n |}.

Definition leaked_conn {Store : Type} (s : Store) : ConnState Store :=
  {| conn_open := true; cursor_open := false; pending := s; rowcount := -1 |}.

(** ** The reports of the operations *)

Definition connect_error_report (e : Exn) : Report :=
  {| level := Error;
     message := [Lit "Error connecting to the database: "; FmtExn e] |}.

Definition query_error_report (e : Exn) : Report :=
  {| level := Error; message := [Lit "Query Error: "; FmtExn e] |}.

Definition warning_report (text : string) : Report :=
  {| level := Warning; message := [Lit text] |}.

Definition created_report (table_name : string) : Report :=
  {| level := Success;
     message := [Lit "Record created successfully in "; Lit table_name] |}.

Definition updated_report (record_id : Value) : Report :=
  {| level := Success;
     message := [Lit "Record "; Fmt record_id; Lit " updated successfully"] |}.

Definition deleted_report (table_name : string) (record_id : Value) : Report :=
  {| level := Success;
     message := [Lit "Record "; Fmt record_id; Lit " deleted successfully from ";
                 Lit table_name] |}.

Definition not_found_report (pk : string) (record_id : Value) : Report :=
  {| level := Warning;
     message := [Lit "No record found with "; Lit pk; Lit " = "; Fmt record_id] |}.

Definition unexpected_error_report (e : Exn) : Report :=
  {| level := Error; message := [Lit "Unexpected error: "; FmtExn e] |}.

(** What the two [except] clauses of a CRUD function show for [e]:
    [prefix] for a [mysql.connector.Error], "Unexpected error: " otherwise. *)
Definition error_report (prefix : string) (e : Exn) : Report :=
  {| level := Error;
     message := [Lit (if is_mysql_error e then prefix else "Unexpected error: ");
                 FmtExn e] |}.

(** ** The vocabulary of the specification *)

(** The value is dropped by the filtering rule as the specification words
    it: null, the empty string, or a number equal to zero. *)
Definition is_blank (v : Value) : bool :=
  match v with
  | VNone => true
  | VStr s => String.eqb s ""
  | VInt z => z =? 0
  | VBool b => negb b
  | VFloat f => float_eq_Z f 0
  | VDate _ _ _ => false
  end.

(** The fixed set of tables: the names in the [primary_keys] dictionary. *)
Definition known_tables : list string :=
  ["Food_Listings"; "Providers"; "Receivers"; "Claims"].

(** [f"DELETE FROM {table_name} WHERE {pk}=%s"] for [Food_Listings]. *)
Definition delete_listing_sql : string := delete_sql "Food_Listings" "Food_ID".

(** Does the SQL template have a [%s] slot? *)
Definition expects_param (sql : string) : bool :=
  match String.index 0 "%s" sql with Some _ => true | None => false end.

(** Does the statement come with bound parameters? *)
Definition binds_param (s : Statement) : bool :=
  match snd s with Some _ => true | None => false end.

(** [run_query] returns, and what it returns is the table read or, after an
    execution error, an empty table with the error reported. *)
Definition run_query_contract {Store : Type} (drv : Driver Store)
    (query : string) (params : option (list Value)) (w : World Store) : Prop :=
  exists df w',
    run_query drv query params w = (Ret df, w') /\
    ((read_sql drv (db w) query params = ReadOk df /\
      reports (trace w') = reports (trace w)) \/
     (exists e, read_sql drv (db w) query params = ReadRaise e /\
                df = empty_table /\
                reports (trace w') = reports (trace w) ++ [query_error_report e])).

(** A CRUD operation refuses the call: it returns after one error report,
    and no statement has reached the store. *)
Definition refused {Store : Type} (op : M (World Store) unit) (w : World Store) : Prop :=
  exists w' r,
    op w = (Ret tt, w') /\
    sent (trace w') = sent (trace w) /\
    reports (trace w') = reports (trace w) ++ [r] /\
    level r = Error.

(** ** A small store for examples *)

(** Two tables of the schema, reduced to their key columns, and the rows
    another session currently holds a lock on. *)
Record DemoStore : Type := {
  food_listings : list Z;        (* Food_ID *)
  claims : list (Z * Z);         (* Claim_ID, Food_ID *)
  locked : list Z                (* Food_IDs locked by another session *)
}.

Definition mem_Z (x : Z) (l : list Z) : bool := existsb (Z.eqb x) l.

(** The statements of [delete_record] on these two tables, as MySQL runs
    them; any other text is rejected. *)
Definition demo_execute (s : DemoStore) (sql : string) (params : list Value)
  : ExecResult DemoStore :=
  match params with
  | [VInt id] =>
      if String.eqb sql "DELETE FROM Claims WHERE Food_ID=%s" then
        ExecOk {| food_listings := food_listings s;
                  claims := List.filter (fun c => negb (snd c =? id)) (claims s);
                  locked := locked s |}
               (Z.of_nat (length (List.filter (fun c => snd c =? id) (claims s))))
      else if String.eqb sql "DELETE FROM Food_Listings WHERE Food_ID=%s" then
        if mem_Z id (locked s) then
          ExecRaise (MySQLError "1205 (HY000): Lock wait timeout exceeded")
        else if existsb (fun c => snd c =? id) (claims s) then
          ExecRaise (MySQLError "1451 (23000): Cannot delete or update a parent row")
        else
          ExecOk {| food_listings := List.filter (fun f => negb (f =? id)) (food_listings s);
                    claims := claims s;
                    locked := locked s |}
                 (Z.of_nat (length (List.filter (fun f => f =? id) (food_listings s))))
      else ExecRaise (MySQLError "1064 (42000): You have an error in your SQL syntax")
  | _ => ExecRaise (MySQLError "1064 (42000): You have an error in your SQL syntax")
  end.

Definition total_quantity_sql : string :=
  "SELECT SUM(Quantity) AS Total_Food_Quantity FROM Food_Listings;".

(** [SELECT * FROM Food_Listings] and the catalogue's total-quantity query
    (every listing counted with quantity 1); any other text is rejected. *)
Definition demo_read_sql (s : DemoStore) (sql : string) (params : option (list Value))
  : ReadResult :=
  match params with
  | None =>
      if String.eqb sql "SELECT * FROM Food_Listings" then
        ReadOk {| columns := ["Food_ID"];
                  rows := List.map (fun f => [VInt f]) (food_listings s) |}
      else if String.eqb sql total_quantity_sql then
        ReadOk {| columns := ["Total_Food_Quantity"];
                  rows := [[VInt (Z.of_nat (length (food_listings s)))]] |}
      else ReadRaise (MySQLError "1064 (42000): You have an error in your SQL syntax")
  | Some _ => ReadRaise (MySQLError "Not all parameters were used in the SQL statement")
  end.

Definition demo_driver : Driver DemoStore :=
  {| mysql_connect := ConnectOk; execute := demo_execute; read_sql := demo_read_sql |}.

(** The same store behind an unreachable host. *)
Definition down_driver : Driver DemoStore :=
  {| mysql_connect := ConnectRaise (MySQLError "2003 (HY000): Can't connect to MySQL server");
     execute := demo_execute; read_sql := demo_read_sql |}.

(** A store in which no statement matches any row. *)
Definition no_match_driver : Driver DemoStore :=
  {| mysql_connect := ConnectOk;
     execute := fun s _ _ => ExecOk s 0;
     read_sql := fun _ _ _ => ReadOk empty_table |}.

(** Listings 1 and 2; two claims on listing 1, one on listing 2. *)
Definition demo_store : DemoStore :=
  {| food_listings := [1; 2]; claims := [(10, 1); (11, 1); (12, 2)]; locked := [] |}.

(** The same rows while another session holds listing 2. *)
Definition busy_store : DemoStore :=
  {| food_listings := [1; 2]; claims := [(10, 1); (11, 1); (12, 2)]; locked := [2] |}.

(** Listing 1 only, and a claim left over on a listing 3 that is gone. *)
Definition orphan_store : DemoStore :=
  {| food_listings := [1]; claims := [(20, 3)]; locked := [] |}.

(** A fresh world on a given database: nothing opened, nothing reported. *)
Definition world_of {Store : Type} (s : Store) : World Store :=
  {| db := s; conns := []; trace := [] |}.

(** A provider form as the "Create" tab submits it: two fields left empty. *)
Definition demo_inputs : Fields :=
  [ ("Provider_ID", VInt 101);
    ("Name", VStr "Acme Foods");
    ("Type", VStr "");
    ("Contact", VStr "555-0100");
    ("Address", VNone);
    ("City", VStr "Springfield") ].

(** A listing form whose numeric fields hold [False], [0.0] and [0]. *)
Definition zero_inputs : Fields :=
  [ ("Food_Name", VStr "Rice");
    ("Quantity", VBool false);
    ("Provider_ID", VFloat (S754_zero false));
    ("Food_ID", VInt 0) ].

(** The statement builders and the dictionary lookup stay folded while a
    function body is run symbolically. *)
Arguments insert_sql : simpl never.
Arguments update_sql : simpl never.
Arguments delete_sql : simpl never.
Arguments filter_inputs : simpl never.
Arguments values : simpl never.
Arguments keys : simpl never.
Arguments dict_get : simpl never.

(** * The rest of [App.py]: the start-up gate, the forms and the pages

    The code below the core functions is the Streamlit script itself.  What
    a widget returns is an argument of the model; what the script shows
    is recorded on a [Page], in order, together with the events of the core
    functions it calls.  [st.rerun()], which ends the "Create", "Update"
    and "Delete" handlers, and the table browser of the second tab (pandas
    dtypes and regular expressions) are not modelled.  Text is ASCII. *)

(** ** What a page shows *)

(** [px.line(df, x=..., y=..., title=..., color_discrete_sequence=...)] *)
Record LineChart : Type := {
  line_data : Table;
  line_x : string;
  line_y : string;
  line_title : string;
  line_palette : string
}.


Inductive Figure : Type :=
| ChartFigure (c : Chart)
| LineFigure (l : LineChart).

(** The display calls other than [st.success], [st.warning], [st.error]. *)
Inductive Display : Type :=
| Subheader (text : string)        (* [st.subheader] *)
| Dataframe (df : Table)           (* [st.dataframe] *)
| PlotlyChart (fig : Figure)       (* [st.plotly_chart] *)
| Info (text : string)             (* [st.info] *)
| Spinner (text : string).         (* [with st.spinner(text):] *)

(** One thing that happened while a page ran: an event of a core function
    or of the driver, or something shown. *)
Inductive UiEvent : Type :=
| Core (e : Event)
| Show (d : Display).

Record Page (Store : Type) : Type := {
  screen : list UiEvent;
  world : World Store
}.
Arguments screen {Store} _.
Arguments world {Store} _.

(** A core computation run from a page: the events it appends to the trace
    are also put on the screen. *)
Definition core {Store A : Type} (m : M (World Store) A) : M (Page Store) A :=
  fun p =>
    match m (world p) with
    | (r, w') =>
        (r, {| screen := screen p ++
                         List.map Core (drop (length (trace (world p))) (trace w'));
               world := w' |})
    end.

Definition show {Store : Type} (d : Display) : M (Page Store) unit :=
  fun p => (Ret tt, {| screen := screen p ++ [Show d]; world := world p |}).

Definition page_of {Store : Type} (w : World Store) : Page Store :=
  {| screen := []; world := w |}.

Definition shown (scr : list UiEvent) : list Display :=
  omap (fun e => match e with Show d => Some d | Core _ => None end) scr.

(** ** The start-up gate *)

(** The text of the [st.info] call of the gate. *)
Definition deployment_hint : string :=
  "
    **For Streamlit Cloud deployment, you need to:**
    1. Set up a cloud MySQL database (e.g., PlanetScale, Railway, or AWS RDS)
    2. Configure secrets in Streamlit Cloud with your database credentials
    3. Make sure your database tables are created and populated
    ".

Section Pages.

Context {Store : Type} (drv : Driver Store).

Local Open Scope py_scope.

(** [test_db_connection()] *)
Definition test_db_connection : M (World Store) bool :=
  try_except
    (conn <- connector_connect drv ;;
     conn_close conn ;;
     ret true)
    (fun e => st_error [Lit "Database connection test failed: "; FmtExn e] ;;
              ret false).

(** [if not test_db_connection(): st.error(...); st.info(...); st.stop()] *)
Definition startup_gate : M (Page Store) unit :=
  ok <- core test_db_connection ;;
  if negb ok then
    core (st_error [Lit "Cannot connect to database. Please check your configuration."]) ;;
    show (Info deployment_hint) ;;
    core st_stop
  else ret tt.

End Pages.

(** ** The CRUD forms *)

(** The [table_fields] dictionary of the third tab. *)
Definition table_fields : list (string * list string) :=
  [ ("Food_Listings",
     ["Food_ID"; "Food_Name"; "Quantity"; "Expiry_Date"; "Provider_ID"; "Provider_Type";
      "Location"; "Food_Type"; "Meal_Type"]);
    ("Providers", ["Provider_ID"; "Name"; "Type"; "Contact"; "Address"; "City"]);
    ("Receivers", ["Receiver_ID"; "Name"; "Contact"; "Address"; "City"]);
    ("Claims", ["Claim_ID"; "Food_ID"; "Receiver_ID"; "Status"; "Claim_Date"]) ].

(** [needle in hay] on strings *)
Definition py_str_in (needle hay : string) : bool :=
  match String.index 0 needle hay with Some _ => true | None => false end.

(** The input widgets of the forms. *)
Inductive Widget : Type :=
| NumberInput (min_value : Z)     (* [st.number_input(field, min_value=.., step=1)] *)
| DateInput                       (* [st.date_input(field)] *)
| TextInput.                      (* [st.text_input(field)] *)

(** What a widget can hand back: an integer not below its minimum, a date,
    a string. *)
Definition widget_returns (wd : Widget) (v : Value) : bool :=
  match wd, v with
  | NumberInput m, VInt z => m <=? z
  | DateInput, VDate _ _ _ => true
  | TextInput, VStr _ => true
  | _, _ => false
  end.

(** The widget the "Create" form shows for a field. *)
Definition create_widget (field : string) : Widget :=
  if py_str_in "ID" field || py_str_in "Quantity" field then NumberInput 1
  else if py_str_in "Date" field then DateInput
  else TextInput.

(** The widget the "Update" form shows for a field. *)
Definition update_widget (field : string) : Widget :=
  if py_str_in "ID" field || py_str_in "Quantity" field then NumberInput 0
  else if py_str_in "Date" field then DateInput
  else TextInput.

(** [d[key] = v]: the value is replaced in place, or the item is added at
    the end. *)
Fixpoint dict_set {A : Type} (d : list (string * A)) (key : string) (v : A)
  : list (string * A) :=
  match d with
  | [] => [(key, v)]
  | (k, x) :: rest =>
      if String.eqb k key then (k, v) :: rest else (k, x) :: dict_set rest key v
  end.

(** The loop of the "Create" form: [inputs[field] = <widget>(field)] for
    every field; [entry field] is what the user left in the widget. *)
Definition create_form_inputs (fields : list string) (entry : string -> Value) : Fields :=
  fold_left (fun inputs field => dict_set inputs field (entry field)) fields [].

(** The loop of the "Update" form: the same, skipping the primary key. *)
Definition update_form_inputs (fields : list string) (pk : string)
    (entry : string -> Value) : Fields :=
  fold_left (fun inputs field =>
               if String.eqb field pk then inputs
               else dict_set inputs field (entry field))
            fields [].

(** The user's entries fit the widgets of the form. *)
Definition entries_fit (widget : string -> Widget) (fields : list string)
    (entry : string -> Value) : bool :=
  forallb (fun field => widget_returns (widget field) (entry field)) fields.

Section Forms.

Context {Store : Type} (drv : Driver Store).

Local Open Scope py_scope.

(** [d[key]], raising [KeyError] *)
Definition dict_item {S A : Type} (d : list (string * A)) (key : string) : M S A :=
  match dict_get d key with
  | Some v => ret v
  | None => raise (KeyError key)
  end.

(** The "Create Record" button: [fields] and [pk] are looked up when the
    tab is drawn, [inputs] is built from the form, [create_record] is
    called. *)
Definition submit_create (table_name : string) (entry : string -> Value)
  : M (World Store) unit :=
  fields <- dict_item table_fields table_name ;;
  pk <- dict_item primary_keys table_name ;;
  create_record drv table_name (create_form_inputs fields entry).

(** The "Update Record" button. *)
Definition submit_update (table_name : string) (record_id : Value)
    (entry : string -> Value) : M (World Store) unit :=
  fields <- dict_item table_fields table_name ;;
  pk <- dict_item primary_keys table_name ;;
  update_record drv table_name record_id (update_form_inputs fields pk entry).

End Forms.

(** ** The SQL playground, the analysis page and the contact page *)




(** The [query_options] list of the analysis page. *)
Definition query_options : list string :=
  [ "Providers & Receivers by City";
    "Top Food Provider Type by Quantity";
    "Provider Contact Info by City";
    "Top Receivers by Claimed Food";
    "Total Food Quantity Available";
    "City with Most Food Listings";
    "Top Food Types Available";
    "Claims Count per Food Item";
    "Top Provider by Successful Claims";
    "Claims Status Percentage";
    "Avg Quantity Claimed per Receiver";
    "Most Claimed Meal Type";
    "Total Food Donated by Provider";
    "Top Cities by Claimed Food Quantity";
    "Providers with Most Food Listings";
    "Expired or Soon-to-Expire Food Items" ].

Definition provider_contact_sql : string :=
  "SELECT Name, Contact, Address FROM Providers WHERE Provider_ID = %s".

Definition receiver_contact_sql : string :=
  "SELECT Name, Contact, Address FROM Receivers WHERE Receiver_ID = %s".

Section Handlers.

Context {Store : Type} (drv : Driver Store).

Local Open Scope py_scope.



(** The parameter of the analysis page: the city field exists only for
    one query. *)
Definition analysis_param (selected_query city : string) : Value :=
  if String.eqb selected_query "Provider Contact Info by City" then VStr city else VNone.

(** The body of [if st.button("Run Analysis")]. *)
Definition run_analysis_button (selected_query city : string) : M (Page Store) unit :=
  show (Spinner "Running analysis...") ;;
  r <- core (analysis_query drv selected_query (analysis_param selected_query city)) ;;
  match fst r with
  | Some df =>
      if negb (df_empty df) then
        show (Subheader "Results") ;;
        show (Dataframe df) ;;
        match snd r with
        | Some fig => show (PlotlyChart (ChartFigure fig))
        | None => ret tt
        end
      else core (st_warning [Lit "No data found for the selected query."])
  | None => core (st_warning [Lit "No data found for the selected query."])
  end.

(** The body of [if st.button("Get Contact Info")]. *)
Definition contact_button (entity : string) (entity_id : Value) : M (Page Store) unit :=
  let query :=
    if String.eqb entity "Provider" then provider_contact_sql else receiver_contact_sql in
  df <- core (run_query drv query (Some [entity_id])) ;;
  if negb (df_empty df) then
    show (Subheader "Contact Details") ;;
    show (Dataframe df)
  else
    core (st_error [Lit "No "; Lit entity; Lit " found with ID "; Fmt entity_id]).

End Handlers.

(** ** Reports and vocabulary of the pages *)

Definition test_failed_report (e : Exn) : Report :=
  {| level := Error;
     message := [Lit "Database connection test failed: "; FmtExn e] |}.

Definition cannot_connect_report : Report :=
  {| level := Error;
     message := [Lit "Cannot connect to database. Please check your configuration."] |}.

(** ** Parameter slots of a statement text *)

Definition is_percent (c : ascii) : bool := Ascii.eqb c "%"%char.

Definition starts_with_s (s : string) : bool :=
  match s with
  | String c _ => Ascii.eqb c "s"%char
  | EmptyString => false
  end.

(** The number of [%s] slots in a text. *)
Fixpoint count_slots (s : string) : nat :=
  match s with
  | EmptyString => 0
  | String c rest =>
      ((if is_percent c && starts_with_s rest then 1 else 0) + count_slots rest)%nat
  end.

(** No percent sign occurs in the text. *)
Fixpoint percent_free (s : string) : bool :=
  match s with
  | EmptyString => true
  | String c rest => negb (is_percent c) && percent_free rest
  end.

(** ** Reports of the pages *)



Definition no_analysis_data_report : Report :=
  {| level := Warning; message := [Lit "No data found for the selected query."] |}.

Definition contact_missing_report (entity : string) (entity_id : Value) : Report :=
  {| level := Error;
     message := [Lit "No "; Lit entity; Lit " found with ID "; Fmt entity_id] |}.


(** A form submitted as it was drawn: every number widget at its minimum,
    every date widget at the day shown, every text widget empty. *)
Definition untouched_entry (widget : string -> Widget) (field : string) : Value :=
  match widget field with
  | NumberInput m => VInt m
  | DateInput => VDate 2025 1 31
  | TextInput => VStr ""
  end.

Definition food_listing_fields : list string :=
  ["Food_ID"; "Food_Name"; "Quantity"; "Expiry_Date"; "Provider_ID"; "Provider_Type";
   "Location"; "Food_Type"; "Meal_Type"].
(** * Properties *)

(** ** Outcomes of the operations, case by case *)

(** The connection opened by a call is the last one in [conns]. *)
Lemma lookup_new {A : Type} (cs : list A) x : (cs ++ [x]) !! length cs = Some x.
Proof. by apply list_lookup_middle. Qed.

Lemma alter_new {A : Type} (f : A -> A) cs x :
  alter f (length cs) (cs ++ [x]) = cs ++ [f x].
Proof. rewrite alter_app_r_alt by lia. by rewrite Nat.sub_diag. Qed.

Lemma insert_new {A : Type} (cs : list A) x y :
  <[length cs := y]> (cs ++ [x]) = cs ++ [y].
Proof. rewrite insert_app_r_alt by lia. by rewrite Nat.sub_diag. Qed.

Lemma is_empty_false {A : Type} (l : list A) : l <> [] -> is_empty l = false.
Proof. by destruct l. Qed.

Lemma db_after {Store : Type} (w : World Store) s c evs : db (after w s c evs) = s.
Proof. reflexivity. Qed.

Lemma trace_after {Store : Type} (w : World Store) s c evs :
  trace (after w s c evs) = trace w ++ evs.
Proof. reflexivity. Qed.

Lemma is_open_after {Store : Type} (w : World Store) s c evs :
  is_open (after w s c evs) (length (conns w)) = conn_open c.
Proof. unfold is_open, after; simpl. by rewrite lookup_new. Qed.

(** Running a function body symbolically: unfold the monad, then let the
    driver's answers (rewritten by hand) drive the computation. *)
Ltac py_unfold :=
  unfold create_record, update_record, delete_record, run_query, close_locals,
    primary_key_of, call, lift, try_finally, try_except, bind, ret, raise, locals,
    assign_conn, assign_cursor, st_success, st_warning, st_error, st_stop, emit,
    conn_cursor, cursor_execute, cursor_rowcount, conn_commit, cursor_close,
    conn_close, pd_read_sql, no_connection.

Ltac py_simpl :=
  repeat (progress (simpl; rewrite ?lookup_new, ?alter_new, ?insert_new)).

Ltac py_done :=
  unfold after, closed_conn, leaked_conn, unexpected_error_report, log, set_conns, new_conn;
  simpl;
  rewrite <- ?app_assoc; reflexivity.

Section Outcomes.

Context {Store : Type} (drv : Driver Store).

(** *** [get_db_connection] *)

Lemma get_db_connection_ok w :
  mysql_connect drv = ConnectOk ->
  get_db_connection drv w =
    (Ret (length (conns w)),
     log (EvConnect (length (conns w))) (set_conns (conns w ++ [new_conn (db w)]) w)).
Proof.
  intros H. unfold get_db_connection, try_except, connector_connect. by rewrite H.
Qed.

Lemma get_db_connection_stop w e :
  mysql_connect drv = ConnectRaise e ->
  get_db_connection drv w =
    (Raise StopException, log (EvReport (connect_error_report e)) w).
Proof.
  intros H. unfold get_db_connection, try_except, connector_connect. by rewrite H.
Qed.

(** *** [run_query] *)

Lemma run_query_success query params w df :
  mysql_connect drv = ConnectOk ->
  read_sql drv (db w) query params = ReadOk df ->
  let c := length (conns w) in
  run_query drv query params w =
    (Ret df, after w (db w) (closed_conn (db w) (-1))
                   [EvConnect c; EvReadSql c query params; EvClose c]).
Proof.
  intros Hc Hr. py_unfold. rewrite get_db_connection_ok by done.
  py_simpl. rewrite Hr. py_simpl. py_done.
Qed.

Lemma run_query_error query params w e :
  mysql_connect drv = ConnectOk ->
  read_sql drv (db w) query params = ReadRaise e ->
  let c := length (conns w) in
  run_query drv query params w =
    (Ret empty_table,
     after w (db w) (leaked_conn (db w))
           [EvConnect c; EvReadSql c query params; EvReport (query_error_report e)]).
Proof.
  intros Hc Hr. py_unfold. rewrite get_db_connection_ok by done.
  py_simpl. rewrite Hr. py_simpl. py_done.
Qed.

Lemma run_query_stop query params w e :
  mysql_connect drv = ConnectRaise e ->
  run_query drv query params w =
    (Raise StopException, log (EvReport (connect_error_report e)) w).
Proof.
  intros Hc. py_unfold. by rewrite (get_db_connection_stop _ e).
Qed.

(** *** [create_record] *)

Lemma create_record_stop table_name inputs w e :
  mysql_connect drv = ConnectRaise e ->
  create_record drv table_name inputs w =
    (Raise StopException, log (EvReport (connect_error_report e)) w).
Proof.
  intros Hc. py_unfold. simpl. by rewrite (get_db_connection_stop _ e).
Qed.

Lemma create_record_nothing table_name inputs w :
  mysql_connect drv = ConnectOk ->
  filter_inputs inputs = [] ->
  let c := length (conns w) in
  create_record drv table_name inputs w =
    (Ret tt, after w (db w) (closed_conn (db w) (-1))
                   [EvConnect c; EvCursor c;
                    EvReport (warning_report "No data to insert");
                    EvCursorClose c; EvClose c]).
Proof.
  intros Hc Hf. py_unfold. simpl. rewrite get_db_connection_ok by done.
  rewrite Hf. py_simpl. py_done.
Qed.

Lemma create_record_inserted table_name inputs w s' n :
  mysql_connect drv = ConnectOk ->
  filter_inputs inputs <> [] ->
  execute drv (db w) (insert_sql table_name (filter_inputs inputs))
          (values (filter_inputs inputs)) = ExecOk s' n ->
  let c := length (conns w) in
  create_record drv table_name inputs w =
    (Ret tt, after w s' (closed_conn s' n)
                   [EvConnect c; EvCursor c;
                    EvExecute c (insert_sql table_name (filter_inputs inputs))
                              (values (filter_inputs inputs));
                    EvCommit c;
                    EvReport (created_report table_name);
                    EvCursorClose c; EvClose c]).
Proof.
  intros Hc Hf He. py_unfold. simpl. rewrite get_db_connection_ok by done.
  rewrite (is_empty_false _ Hf). py_simpl. rewrite He. py_simpl. py_done.
Qed.

Lemma create_record_failed table_name inputs w e :
  mysql_connect drv = ConnectOk ->
  filter_inputs inputs <> [] ->
  execute drv (db w) (insert_sql table_name (filter_inputs inputs))
          (values (filter_inputs inputs)) = ExecRaise e ->
  let c := length (conns w) in
  create_record drv table_name inputs w =
    (Ret tt, after w (db w) (closed_conn (db w) (-1))
                   [EvConnect c; EvCursor c;
                    EvExecute c (insert_sql table_name (filter_inputs inputs))
                              (values (filter_inputs inputs));
                    EvReport (error_report "Error creating record: " e);
                    EvCursorClose c; EvClose c]).
Proof.
  intros Hc Hf He. py_unfold. simpl. rewrite get_db_connection_ok by done.
  rewrite (is_empty_false _ Hf). py_simpl. rewrite He.
  destruct e; py_simpl; py_done.
Qed.

(** *** [update_record] *)

Lemma update_record_stop table_name record_id inputs w e :
  mysql_connect drv = ConnectRaise e ->
  update_record drv table_name record_id inputs w =
    (Raise StopException, log (EvReport (connect_error_report e)) w).
Proof.
  intros Hc. py_unfold. simpl. by rewrite (get_db_connection_stop _ e).
Qed.

Lemma update_record_unknown_table table_name record_id inputs w :
  mysql_connect drv = ConnectOk ->
  dict_get primary_keys table_name = None ->
  let c := length (conns w) in
  update_record drv table_name record_id inputs w =
    (Ret tt, after w (db w) (closed_conn (db w) (-1))
                   [EvConnect c; EvCursor c;
                    EvReport (unexpected_error_report (KeyError table_name));
                    EvCursorClose c; EvClose c]).
Proof.
  intros Hc Hk. py_unfold. simpl. rewrite get_db_connection_ok by done.
  rewrite Hk. py_simpl. py_done.
Qed.

Lemma update_record_nothing table_name pk record_id inputs w :
  mysql_connect drv = ConnectOk ->
  dict_get primary_keys table_name = Some pk ->
  filter_inputs inputs = [] ->
  let c := length (conns w) in
  update_record drv table_name record_id inputs w =
    (Ret tt, after w (db w) (closed_conn (db w) (-1))
                   [EvConnect c; EvCursor c;
                    EvReport (warning_report "No fields to update");
                    EvCursorClose c; EvClose c]).
Proof.
  intros Hc Hk Hf. py_unfold. simpl. rewrite get_db_connection_ok by done.
  rewrite Hk, Hf. py_simpl. py_done.
Qed.

Lemma update_record_executed table_name pk record_id inputs w s' n :
  mysql_connect drv = ConnectOk ->
  dict_get primary_keys table_name = Some pk ->
  filter_inputs inputs <> [] ->
  execute drv (db w) (update_sql table_name pk (filter_inputs inputs))
          (values (filter_inputs inputs) ++ [record_id]) = ExecOk s' n ->
  let c := length (conns w) in
  update_record drv table_name record_id inputs w =
    (Ret tt, after w s' (closed_conn s' n)
                   [EvConnect c; EvCursor c;
                    EvExecute c (update_sql table_name pk (filter_inputs inputs))
                              (values (filter_inputs inputs) ++ [record_id]);
                    EvCommit c;
                    EvReport (if 0 <? n then updated_report record_id
                              else not_found_report pk record_id);
                    EvCursorClose c; EvClose c]).
Proof.
  intros Hc Hk Hf He. py_unfold. simpl. rewrite get_db_connection_ok by done.
  rewrite Hk, (is_empty_false _ Hf). py_simpl. rewrite He. py_simpl.
  destruct (0 <? n); py_simpl; py_done.
Qed.

Lemma update_record_failed table_name pk record_id inputs w e :
  mysql_connect drv = ConnectOk ->
  dict_get primary_keys table_name = Some pk ->
  filter_inputs inputs <> [] ->
  execute drv (db w) (update_sql table_name pk (filter_inputs inputs))
          (values (filter_inputs inputs) ++ [record_id]) = ExecRaise e ->
  let c := length (conns w) in
  update_record drv table_name record_id inputs w =
    (Ret tt, after w (db w) (closed_conn (db w) (-1))
                   [EvConnect c; EvCursor c;
                    EvExecute c (update_sql table_name pk (filter_inputs inputs))
                              (values (filter_inputs inputs) ++ [record_id]);
                    EvReport (error_report "Error updating record: " e);
                    EvCursorClose c; EvClose c]).
Proof.
  intros Hc Hk Hf He. py_unfold. simpl. rewrite get_db_connection_ok by done.
  rewrite Hk, (is_empty_false _ Hf). py_simpl. rewrite He.
  destruct e; py_simpl; py_done.
Qed.

(** *** [delete_record] *)

Lemma delete_record_stop table_name record_id w e :
  mysql_connect drv = ConnectRaise e ->
  delete_record drv table_name record_id w =
    (Raise StopException, log (EvReport (connect_error_report e)) w).
Proof.
  intros Hc. py_unfold. simpl. by rewrite (get_db_connection_stop _ e).
Qed.

Lemma delete_record_unknown_table table_name record_id w :
  mysql_connect drv = ConnectOk ->
  dict_get primary_keys table_name = None ->
  let c := length (conns w) in
  delete_record drv table_name record_id w =
    (Ret tt, after w (db w) (closed_conn (db w) (-1))
                   [EvConnect c; EvCursor c;
                    EvReport (unexpected_error_report (KeyError table_name));
                    EvCursorClose c; EvClose c]).
Proof.
  intros Hc Hk. py_unfold. simpl. rewrite get_db_connection_ok by done.
  rewrite Hk. py_simpl. py_done.
Qed.

(** The dependent delete raised: the primary delete is not attempted. *)
Lemma delete_listing_claims_failed record_id w e :
  mysql_connect drv = ConnectOk ->
  execute drv (db w) delete_claims_sql [record_id] = ExecRaise e ->
  let c := length (conns w) in
  delete_record drv "Food_Listings" record_id w =
    (Ret tt, after w (db w) (closed_conn (db w) (-1))
                   [EvConnect c; EvCursor c;
                    EvExecute c delete_claims_sql [record_id];
                    EvReport (error_report "Error deleting record: " e);
                    EvCursorClose c; EvClose c]).
Proof.
  intros Hc He. py_unfold. simpl. rewrite get_db_connection_ok by done.
  py_simpl. rewrite He. destruct e; py_simpl; py_done.
Qed.

Lemma delete_listing_done record_id w s1 n1 s2 n2 :
  mysql_connect drv = ConnectOk ->
  execute drv (db w) delete_claims_sql [record_id] = ExecOk s1 n1 ->
  execute drv s1 delete_listing_sql [record_id] = ExecOk s2 n2 ->
  let c := length (conns w) in
  delete_record drv "Food_Listings" record_id w =
    (Ret tt, after w s2 (closed_conn s2 n2)
                   [EvConnect c; EvCursor c;
                    EvExecute c delete_claims_sql [record_id];
                    EvExecute c delete_listing_sql [record_id];
                    EvCommit c;
                    EvReport (if 0 <? n2 then deleted_report "Food_Listings" record_id
                              else not_found_report "Food_ID" record_id);
                    EvCursorClose c; EvClose c]).
Proof.
  intros Hc H1 H2. py_unfold. simpl. rewrite get_db_connection_ok by done.
  py_simpl. rewrite H1. py_simpl. unfold delete_listing_sql in H2. rewrite H2. py_simpl.
  destruct (0 <? n2); py_simpl; py_done.
Qed.

Lemma delete_listing_failed record_id w s1 n1 e :
  mysql_connect drv = ConnectOk ->
  execute drv (db w) delete_claims_sql [record_id] = ExecOk s1 n1 ->
  execute drv s1 delete_listing_sql [record_id] = ExecRaise e ->
  let c := length (conns w) in
  delete_record drv "Food_Listings" record_id w =
    (Ret tt, after w (db w) (closed_conn s1 n1)
                   [EvConnect c; EvCursor c;
                    EvExecute c delete_claims_sql [record_id];
                    EvExecute c delete_listing_sql [record_id];
                    EvReport (error_report "Error deleting record: " e);
                    EvCursorClose c; EvClose c]).
Proof.
  intros Hc H1 H2. py_unfold. simpl. rewrite get_db_connection_ok by done.
  py_simpl. rewrite H1. py_simpl. unfold delete_listing_sql in H2. rewrite H2.
  destruct e; py_simpl; py_done.
Qed.

Lemma sent_app (a b : list Event) : sent (a ++ b) = sent a ++ sent b.
Proof. apply omap_app. Qed.

Lemma reports_app (a b : list Event) : reports (a ++ b) = reports a ++ reports b.
Proof. apply omap_app. Qed.

Lemma commits_app (a b : list Event) : commits (a ++ b) = (commits a + commits b)%nat.
Proof. unfold commits. by rewrite List.filter_app, length_app. Qed.

Lemma dict_get_cons {A : Type} (k : string) (v : A) d key :
  dict_get ((k, v) :: d) key = if String.eqb k key then Some v else dict_get d key.
Proof. reflexivity. Qed.

Lemma unknown_table_no_key table_name :
  ~ In table_name known_tables <-> dict_get primary_keys table_name = None.
Proof.
  unfold known_tables, primary_keys. rewrite !dict_get_cons. cbn [In].
  repeat match goal with
         | |- context [String.eqb ?a table_name] =>
             destruct (String.eqb_spec a table_name) as [<- | ?]
         end;
    (split; [intros H | intros H]);
    first [ discriminate | reflexivity | intuition congruence | exfalso; apply H; auto 6 ].
Qed.

End Outcomes.

(** ** The query executor *)

Section QueryExecutor.

Context {Store : Type} (drv : Driver Store).

(** When the store cannot be reached, [get_db_connection] reports the
    failure and stops the script run: [run_query] does not return. *)
Lemma run_query_stops_without_connection query params w e :
  mysql_connect drv = ConnectRaise e ->
  fst (run_query drv query params w) = Raise StopException /\
  ~ run_query_contract drv query params w.
Proof.
  intros Hc. rewrite (run_query_stop drv query params w e Hc). split; [reflexivity |].
  intros (df & w' & H & _). rewrite (run_query_stop drv query params w e Hc) in H.
  discriminate.
Qed.

(** C1 (amended): for every SQL text and optional parameter tuple, once the
    connection to the store is open [run_query] returns: either the table
    that was read, with nothing reported, or, when executing the statement
    raised, an empty table together with a "Query Error" report. *)
Theorem run_query_returns_when_connected query params w :
  mysql_connect drv = ConnectOk ->
  run_query_contract drv query params w.
Proof.
  intros Hc. unfold run_query_contract.
  destruct (read_sql drv (db w) query params) as [df | e] eqn:Hr.
  - eexists _, _. split; [by apply run_query_success |]. left. split; [done |].
    rewrite trace_after, reports_app. simpl. by rewrite app_nil_r.
  - eexists _, _. split; [by apply run_query_error |]. right. exists e.
    repeat split. by rewrite trace_after, reports_app.
Qed.

(** After a successful read the connection is closed again. *)
Lemma run_query_closes_on_success query params w df :
  mysql_connect drv = ConnectOk ->
  read_sql drv (db w) query params = ReadOk df ->
  is_open (snd (run_query drv query params w)) (length (conns w)) = false.
Proof.
  intros Hc Hr. rewrite (run_query_success drv query params w df Hc Hr). simpl.
  by rewrite is_open_after.
Qed.

(** When the read raises, the handler returns without closing: the
    connection opened by the call is still open afterwards, and no
    [conn.close()] is in the trace. *)
Lemma run_query_leaks_on_error query params w e :
  mysql_connect drv = ConnectOk ->
  read_sql drv (db w) query params = ReadRaise e ->
  let c := length (conns w) in
  let w' := snd (run_query drv query params w) in
  is_open w' c = true /\
  trace w' = trace w ++ [EvConnect c; EvReadSql c query params;
                         EvReport (query_error_report e)].
Proof.
  intros Hc Hr. simpl. rewrite (run_query_error drv query params w e Hc Hr). simpl.
  by rewrite is_open_after.
Qed.

End QueryExecutor.

(** C1, the connection cannot be opened: [run_query] reports the
    connection error and the script run stops; no table is returned. *)
Lemma run_query_unreachable_store_stops :
  let r := run_query down_driver "SELECT * FROM Food_Listings" None (world_of demo_store) in
  fst r = Raise StopException /\
  reports (trace (snd r)) =
    [connect_error_report (MySQLError "2003 (HY000): Can't connect to MySQL server")] /\
  ~ run_query_contract down_driver "SELECT * FROM Food_Listings" None (world_of demo_store).
Proof.
  split; [reflexivity | split; [reflexivity |]].
  intros (df & w' & H & _). vm_compute in H. discriminate.
Qed.

Lemma run_query_returns_when_connected_witness :
  run_query_contract demo_driver "SELEC * FORM x" None (world_of demo_store).
Proof. apply run_query_returns_when_connected. reflexivity. Defined.

(** C5: [run_query("SELEC * FORM x")] on a reachable store returns an empty
    table and a "Query Error" report, and connection 0, opened by the call,
    is still open afterwards. *)
Theorem run_query_malformed_sql_leaves_connection_open :
  let r := run_query demo_driver "SELEC * FORM x" None (world_of demo_store) in
  fst r = Ret empty_table /\
  is_open (snd r) 0 = true /\
  trace (snd r) =
    [EvConnect 0; EvReadSql 0 "SELEC * FORM x" None;
     EvReport (query_error_report
                 (MySQLError "1064 (42000): You have an error in your SQL syntax"))].
Proof. vm_compute. auto. Qed.

(** ** The filtering rule *)

(** The membership test of the source and the rule as the specification
    words it agree on every value. *)
Lemma py_in_blank v : py_in v [VNone; VStr ""; VInt 0] = is_blank v.
Proof.
  destruct v as [ | s | z | b | f | y m d]; simpl; try reflexivity.
  - by rewrite orb_false_r.
  - by rewrite orb_false_r.
  - destruct b; reflexivity.
  - by rewrite orb_false_r.
Qed.

Lemma filter_inputs_blank inputs :
  filter_inputs inputs = List.filter (fun kv => negb (is_blank (snd kv))) inputs.
Proof.
  unfold filter_inputs. apply List.filter_ext. intros kv. by rewrite py_in_blank.
Qed.

Lemma filter_inputs_In inputs k v :
  In (k, v) (filter_inputs inputs) <-> In (k, v) inputs /\ is_blank v = false.
Proof.
  rewrite filter_inputs_blank, List.filter_In. simpl.
  by rewrite negb_true_iff.
Qed.

Lemma zero_is_blank v : py_eq v (VInt 0) = true -> is_blank v = true.
Proof.
  destruct v as [ | s | z | b | f | y m d]; simpl; try discriminate; try done.
  destruct b; done.
Qed.

Lemma values_not_blank inputs v :
  In v (values (filter_inputs inputs)) -> is_blank v = false.
Proof.
  unfold values. rewrite in_map_iff. intros ([k v'] & <- & Hin).
  by apply filter_inputs_In in Hin as [_ ?].
Qed.

Lemma empty_or_not {A : Type} (l : list A) : l = [] \/ l <> [].
Proof. destruct l; [by left | by right]. Qed.

(** ** The CRUD engine *)

Section Crud.

Context {Store : Type} (drv : Driver Store).

(** What [create_record] sends: nothing, or the one INSERT built from the
    surviving entries. *)
Lemma create_record_sent table_name inputs w :
  let kept := filter_inputs inputs in
  exists issued,
    sent (trace (snd (create_record drv table_name inputs w))) = sent (trace w) ++ issued /\
    (issued = [] \/ issued = [(insert_sql table_name kept, Some (values kept))]).
Proof.
  simpl. destruct (mysql_connect drv) as [ | e] eqn:Hc.
  - destruct (empty_or_not (filter_inputs inputs)) as [Hf | Hf].
    + rewrite (create_record_nothing drv table_name inputs w Hc Hf). simpl.
      exists []. split; [| by left]. by rewrite sent_app.
    + destruct (execute drv (db w) (insert_sql table_name (filter_inputs inputs))
                        (values (filter_inputs inputs))) as [s' n | e] eqn:He.
      * rewrite (create_record_inserted drv table_name inputs w s' n Hc Hf He). simpl.
        eexists. split; [| by right]. by rewrite sent_app.
      * rewrite (create_record_failed drv table_name inputs w e Hc Hf He). simpl.
        eexists. split; [| by right]. by rewrite sent_app.
  - rewrite (create_record_stop drv table_name inputs w e Hc). simpl.
    exists []. split; [| by left]. by rewrite sent_app.
Qed.

(** What [update_record] sends: nothing, or the one UPDATE built from the
    surviving entries, with [record_id] bound last. *)
Lemma update_record_sent table_name record_id inputs w :
  let kept := filter_inputs inputs in
  exists issued,
    sent (trace (snd (update_record drv table_name record_id inputs w)))
      = sent (trace w) ++ issued /\
    (issued = [] \/
     exists pk, dict_get primary_keys table_name = Some pk /\
                issued = [(update_sql table_name pk kept, Some (values kept ++ [record_id]))]).
Proof.
  simpl. destruct (mysql_connect drv) as [ | e] eqn:Hc.
  - destruct (dict_get primary_keys table_name) as [pk | ] eqn:Hk.
    + destruct (empty_or_not (filter_inputs inputs)) as [Hf | Hf].
      * rewrite (update_record_nothing drv table_name pk record_id inputs w Hc Hk Hf).
        simpl. exists []. split; [| by left]. by rewrite sent_app.
      * destruct (execute drv (db w) (update_sql table_name pk (filter_inputs inputs))
                          (values (filter_inputs inputs) ++ [record_id]))
          as [s' n | e] eqn:He.
        -- rewrite (update_record_executed drv table_name pk record_id inputs w s' n
                      Hc Hk Hf He). simpl.
           eexists. split; [| right; by exists pk]. by rewrite sent_app.
        -- rewrite (update_record_failed drv table_name pk record_id inputs w e
                      Hc Hk Hf He). simpl.
           eexists. split; [| right; by exists pk]. by rewrite sent_app.
    + rewrite (update_record_unknown_table drv table_name record_id inputs w Hc Hk).
      simpl. exists []. split; [| by left]. by rewrite sent_app.
  - rewrite (update_record_stop drv table_name record_id inputs w e Hc). simpl.
    exists []. split; [| by left]. by rewrite sent_app.
Qed.

(** C3: with the connection open, [create_record] and [update_record] keep
    exactly the entries whose value is not null, not the empty string and
    not a zero; when none is left they send no statement, leave the store
    as it was and report a warning; otherwise [create_record] sends exactly
    one INSERT, naming the surviving columns and binding their values, and
    [update_record] (on a table of the schema) exactly one UPDATE. *)
Theorem create_update_drop_blank_fields table_name record_id inputs w :
  mysql_connect drv = ConnectOk ->
  let kept := filter_inputs inputs in
  kept = List.filter (fun kv => negb (is_blank (snd kv))) inputs /\
  (kept = [] ->
     (exists w',
        create_record drv table_name inputs w = (Ret tt, w') /\
        sent (trace w') = sent (trace w) /\
        db w' = db w /\
        reports (trace w') = reports (trace w) ++ [warning_report "No data to insert"]) /\
     (In table_name known_tables ->
      exists w',
        update_record drv table_name record_id inputs w = (Ret tt, w') /\
        sent (trace w') = sent (trace w) /\
        db w' = db w /\
        reports (trace w') = reports (trace w) ++ [warning_report "No fields to update"])) /\
  (kept <> [] ->
     (exists w',
        create_record drv table_name inputs w = (Ret tt, w') /\
        sent (trace w') =
          sent (trace w) ++ [(insert_sql table_name kept, Some (values kept))]) /\
     (In table_name known_tables ->
      exists w' pk,
        update_record drv table_name record_id inputs w = (Ret tt, w') /\
        dict_get primary_keys table_name = Some pk /\
        sent (trace w') =
          sent (trace w) ++
          [(update_sql table_name pk kept, Some (values kept ++ [record_id]))])).
Proof.
  intros Hc kept. subst kept. split; [apply filter_inputs_blank |]. split.
  - intros Hf. split.
    + eexists. split; [by apply create_record_nothing |].
      rewrite trace_after, sent_app, reports_app, db_after. simpl.
      by rewrite app_nil_r.
    + intros Hk.
      destruct (dict_get primary_keys table_name) as [pk | ] eqn:Hpk;
        [| by apply unknown_table_no_key in Hpk].
      eexists. split; [by eapply update_record_nothing |].
      rewrite trace_after, sent_app, reports_app, db_after. simpl.
      by rewrite app_nil_r.
  - intros Hf. split.
    + destruct (execute drv (db w) (insert_sql table_name (filter_inputs inputs))
                        (values (filter_inputs inputs))) as [s' n | e] eqn:He.
      * eexists. split; [by eapply create_record_inserted |].
        by rewrite trace_after, sent_app.
      * eexists. split; [by eapply create_record_failed |].
        by rewrite trace_after, sent_app.
    + intros Hk.
      destruct (dict_get primary_keys table_name) as [pk | ] eqn:Hpk;
        [| by apply unknown_table_no_key in Hpk].
      destruct (execute drv (db w) (update_sql table_name pk (filter_inputs inputs))
                        (values (filter_inputs inputs) ++ [record_id]))
        as [s' n | e] eqn:He.
      * eexists _, pk. split; [by eapply update_record_executed |].
        split; [done |]. by rewrite trace_after, sent_app.
      * eexists _, pk. split; [by eapply update_record_failed |].
        split; [done |]. by rewrite trace_after, sent_app.
Qed.

(** C4: an [update_record] call with a table of the schema and at least
    one surviving field, whose UPDATE runs but affects zero rows (the
    store is as before and [rowcount] is 0), reports "No record found"
    as a warning, which no error report equals, and leaves the database
    unchanged. *)
Theorem update_zero_rows_reports_not_found table_name pk record_id inputs w :
  mysql_connect drv = ConnectOk ->
  dict_get primary_keys table_name = Some pk ->
  filter_inputs inputs <> [] ->
  execute drv (db w) (update_sql table_name pk (filter_inputs inputs))
          (values (filter_inputs inputs) ++ [record_id]) = ExecOk (db w) 0 ->
  exists w',
    update_record drv table_name record_id inputs w = (Ret tt, w') /\
    reports (trace w') = reports (trace w) ++ [not_found_report pk record_id] /\
    level (not_found_report pk record_id) = Warning /\
    (forall e, not_found_report pk record_id <> error_report "Error updating record: " e) /\
    db w' = db w.
Proof.
  intros Hc Hk Hf He.
  eexists. split; [by eapply update_record_executed |].
  rewrite trace_after, reports_app, db_after. simpl.
  repeat split. intros e. discriminate.
Qed.

(** The dependent delete always comes first: whatever the store answers,
    the first statement of [delete_record("Food_Listings", id)] is the
    DELETE on Claims. *)
Lemma delete_listing_starts_with_claims record_id w :
  mysql_connect drv = ConnectOk ->
  exists rest,
    sent (trace (snd (delete_record drv "Food_Listings" record_id w)))
      = sent (trace w) ++ (delete_claims_sql, Some [record_id]) :: rest.
Proof.
  intros Hc.
  destruct (execute drv (db w) delete_claims_sql [record_id]) as [s1 n1 | e] eqn:H1.
  - destruct (execute drv s1 delete_listing_sql [record_id]) as [s2 n2 | e] eqn:H2.
    + rewrite (delete_listing_done drv record_id w s1 n1 s2 n2 Hc H1 H2). simpl.
      rewrite sent_app. by eexists.
    + rewrite (delete_listing_failed drv record_id w s1 n1 e Hc H1 H2). simpl.
      rewrite sent_app. by eexists.
  - rewrite (delete_listing_claims_failed drv record_id w e Hc H1). simpl.
    rewrite sent_app. by eexists.
Qed.

(** C2: [delete_record("Food_Listings", record_id)], for any content of the
    store, sends the DELETE of the Claims rows with that Food_ID and then
    the DELETE of the Food_Listings row by primary key; the database ends
    as the two statements leave it; and the report is "No record found"
    exactly when the primary delete affected zero rows, whatever number
    [n1] of Claims rows the first statement removed. *)
Theorem delete_food_listing_cascades record_id w s1 n1 s2 n2 :
  mysql_connect drv = ConnectOk ->
  execute drv (db w) delete_claims_sql [record_id] = ExecOk s1 n1 ->
  execute drv s1 delete_listing_sql [record_id] = ExecOk s2 n2 ->
  0 <= n2 ->
  exists w' r,
    delete_record drv "Food_Listings" record_id w = (Ret tt, w') /\
    sent (trace w') =
      sent (trace w) ++ [(delete_claims_sql, Some [record_id]);
                         (delete_listing_sql, Some [record_id])] /\
    db w' = s2 /\
    reports (trace w') = reports (trace w) ++ [r] /\
    (r = not_found_report "Food_ID" record_id <-> n2 = 0).
Proof.
  intros Hc H1 H2 Hn.
  eexists _, _. split; [by eapply delete_listing_done |].
  rewrite trace_after, sent_app, reports_app, db_after. simpl.
  repeat split.
  - destruct (Z.ltb_spec 0 n2); [discriminate | lia].
  - intros ->. reflexivity.
Qed.

(** C10: in [delete_record("Food_Listings", record_id)] the two deletes
    come before the only commit; and when the primary delete raises, no
    commit happens at all: the database is as before the call, the
    connection is closed, and one error is reported. *)
Theorem delete_food_listing_all_or_nothing record_id w s1 n1 :
  mysql_connect drv = ConnectOk ->
  execute drv (db w) delete_claims_sql [record_id] = ExecOk s1 n1 ->
  let c := length (conns w) in
  (forall s2 n2,
     execute drv s1 delete_listing_sql [record_id] = ExecOk s2 n2 ->
     exists w' r,
       delete_record drv "Food_Listings" record_id w = (Ret tt, w') /\
       trace w' = trace w ++ [EvConnect c; EvCursor c;
                              EvExecute c delete_claims_sql [record_id];
                              EvExecute c delete_listing_sql [record_id];
                              EvCommit c; EvReport r; EvCursorClose c; EvClose c] /\
       db w' = s2) /\
  (forall e,
     execute drv s1 delete_listing_sql [record_id] = ExecRaise e ->
     exists w',
       delete_record drv "Food_Listings" record_id w = (Ret tt, w') /\
       sent (trace w') =
         sent (trace w) ++ [(delete_claims_sql, Some [record_id]);
                            (delete_listing_sql, Some [record_id])] /\
       commits (trace w') = commits (trace w) /\
       db w' = db w /\
       is_open w' c = false /\
       reports (trace w') =
         reports (trace w) ++ [error_report "Error deleting record: " e]).
Proof.
  intros Hc H1 c. subst c. split.
  - intros s2 n2 H2. eexists _, _.
    split; [by eapply delete_listing_done |]. by rewrite trace_after, db_after.
  - intros e H2. eexists.
    split; [by eapply delete_listing_failed |].
    rewrite trace_after, sent_app, commits_app, reports_app, db_after, is_open_after.
    simpl. repeat split. unfold commits. simpl. lia.
Qed.

(** C6 (amended): for a table name outside the fixed set, [update_record]
    and [delete_record] report the failed primary-key lookup as an
    "Unexpected error" and send nothing to the store, which stays as it
    was; [create_record] looks nothing up, and sends its INSERT on that
    name whenever a field survives the filtering. *)
Theorem unknown_table_lookup_fails table_name record_id inputs w :
  mysql_connect drv = ConnectOk ->
  ~ In table_name known_tables ->
  refused (update_record drv table_name record_id inputs) w /\
  refused (delete_record drv table_name record_id) w /\
  reports (trace (snd (update_record drv table_name record_id inputs w)))
    = reports (trace w) ++ [unexpected_error_report (KeyError table_name)] /\
  reports (trace (snd (delete_record drv table_name record_id w)))
    = reports (trace w) ++ [unexpected_error_report (KeyError table_name)] /\
  db (snd (update_record drv table_name record_id inputs w)) = db w /\
  db (snd (delete_record drv table_name record_id w)) = db w /\
  (filter_inputs inputs <> [] ->
   sent (trace (snd (create_record drv table_name inputs w)))
     = sent (trace w) ++
       [(insert_sql table_name (filter_inputs inputs),
         Some (values (filter_inputs inputs)))]).
Proof.
  intros Hc Hk. apply unknown_table_no_key in Hk.
  pose proof (update_record_unknown_table drv table_name record_id inputs w Hc Hk) as Hu.
  pose proof (delete_record_unknown_table drv table_name record_id w Hc Hk) as Hd.
  simpl in Hu, Hd. rewrite Hu, Hd. cbn [snd].
  rewrite !trace_after, !reports_app, !db_after. simpl.
  repeat split.
  - eexists _, _. split; [exact Hu |].
    rewrite trace_after, sent_app, reports_app. simpl. by rewrite app_nil_r.
  - eexists _, _. split; [exact Hd |].
    rewrite trace_after, sent_app, reports_app. simpl. by rewrite app_nil_r.
  - intros Hf.
    destruct (execute drv (db w) (insert_sql table_name (filter_inputs inputs))
                      (values (filter_inputs inputs))) as [s' n | e] eqn:He.
    + rewrite (create_record_inserted drv table_name inputs w s' n Hc Hf He). simpl.
      by rewrite sent_app.
    + rewrite (create_record_failed drv table_name inputs w e Hc Hf He). simpl.
      by rewrite sent_app.
Qed.

(** C9: the filtering rule tests [v == 0], so every value equal to zero
    is dropped, [False] and the float zeros as much as the integer 0; and no
    statement that [create_record] or [update_record] sends binds such a value
    to a column (the last parameter of an UPDATE is [record_id]). *)
Theorem zero_like_values_never_written table_name record_id inputs w :
  (forall v, py_eq v (VInt 0) = true -> py_in v [VNone; VStr ""; VInt 0] = true) /\
  py_eq (VBool false) (VInt 0) = true /\
  (forall sign, py_eq (VFloat (S754_zero sign)) (VInt 0) = true) /\
  (forall k v, py_eq v (VInt 0) = true -> ~ In (k, v) (filter_inputs inputs)) /\
  (exists issued,
     sent (trace (snd (create_record drv table_name inputs w))) = sent (trace w) ++ issued /\
     forall sql params v,
       In (sql, Some params) issued -> In v params -> py_eq v (VInt 0) = false) /\
  (exists issued,
     sent (trace (snd (update_record drv table_name record_id inputs w)))
       = sent (trace w) ++ issued /\
     forall sql params,
       In (sql, Some params) issued ->
       exists vals, params = vals ++ [record_id] /\
                    forall v, In v vals -> py_eq v (VInt 0) = false).
Proof.
  assert (Hz : forall v, is_blank v = false -> py_eq v (VInt 0) = false).
  { intros v Hb. destruct (py_eq v (VInt 0)) eqn:E; [| done].
    apply zero_is_blank in E. congruence. }
  split; [| split; [| split; [| split; [| split]]]].
  - intros v Hv. rewrite py_in_blank. by apply zero_is_blank.
  - reflexivity.
  - intros sign. reflexivity.
  - intros k v Hv Hin. apply filter_inputs_In in Hin as [_ Hb].
    apply zero_is_blank in Hv. congruence.
  - destruct (create_record_sent table_name inputs w) as (issued & Hs & Hi).
    exists issued. split; [exact Hs |].
    intros sql params v Hin Hv. destruct Hi as [-> | ->]; [destruct Hin |].
    destruct Hin as [Heq | []]. inversion Heq; subst.
    apply Hz. by eapply values_not_blank.
  - destruct (update_record_sent table_name record_id inputs w) as (issued & Hs & Hi).
    exists issued. split; [exact Hs |].
    intros sql params Hin. destruct Hi as [-> | (pk & _ & ->)]; [destruct Hin |].
    destruct Hin as [Heq | []]. inversion Heq; subst.
    eexists. split; [reflexivity |].
    intros v Hv. apply Hz. by eapply values_not_blank.
Qed.


(** The CRUD functions close what they opened on every path that returns,
    the error paths included: their [finally] block does it. *)
Lemma crud_closes_connection table_name record_id inputs w :
  mysql_connect drv = ConnectOk ->
  let c := length (conns w) in
  is_open (snd (create_record drv table_name inputs w)) c = false /\
  is_open (snd (update_record drv table_name record_id inputs w)) c = false /\
  is_open (snd (delete_record drv table_name record_id w)) c = false.
Proof.
  intros Hc c. subst c. repeat split.
  - destruct (empty_or_not (filter_inputs inputs)) as [Hf | Hf].
    + rewrite (create_record_nothing drv table_name inputs w Hc Hf). apply is_open_after.
    + destruct (execute drv (db w) (insert_sql table_name (filter_inputs inputs))
                        (values (filter_inputs inputs))) as [s' n | e] eqn:He.
      * rewrite (create_record_inserted drv table_name inputs w s' n Hc Hf He).
        apply is_open_after.
      * rewrite (create_record_failed drv table_name inputs w e Hc Hf He).
        apply is_open_after.
  - destruct (dict_get primary_keys table_name) as [pk | ] eqn:Hk.
    + destruct (empty_or_not (filter_inputs inputs)) as [Hf | Hf].
      * rewrite (update_record_nothing drv table_name pk record_id inputs w Hc Hk Hf).
        apply is_open_after.
      * destruct (execute drv (db w) (update_sql table_name pk (filter_inputs inputs))
                          (values (filter_inputs inputs) ++ [record_id]))
          as [s' n | e] eqn:He.
        -- rewrite (update_record_executed drv table_name pk record_id inputs w s' n
                      Hc Hk Hf He). apply is_open_after.
        -- rewrite (update_record_failed drv table_name pk record_id inputs w e
                      Hc Hk Hf He). apply is_open_after.
    + rewrite (update_record_unknown_table drv table_name record_id inputs w Hc Hk).
      apply is_open_after.
  - unfold is_open. py_unfold. simpl. rewrite get_db_connection_ok by done.
    destruct (dict_get primary_keys table_name) as [pk | ]; py_simpl; [| done].
    destruct (String.eqb table_name "Food_Listings"); py_simpl;
      repeat match goal with
             | |- context [match execute ?d ?s ?q ?p with _ => _ end] =>
                 destruct (execute d s q p) as [? ? | []]; py_simpl
             | |- context [if 0 <? ?n then _ else _] => destruct (0 <? n); py_simpl
             end; done.
Qed.

(** The database changes only through a commit: a CRUD call whose trace
    gained no commit leaves it as it was, whatever the driver answered. *)
Lemma crud_writes_only_by_commit table_name record_id inputs w :
  (commits (trace (snd (create_record drv table_name inputs w))) = commits (trace w) ->
   db (snd (create_record drv table_name inputs w)) = db w) /\
  (commits (trace (snd (update_record drv table_name record_id inputs w)))
     = commits (trace w) ->
   db (snd (update_record drv table_name record_id inputs w)) = db w) /\
  (commits (trace (snd (delete_record drv table_name record_id w))) = commits (trace w) ->
   db (snd (delete_record drv table_name record_id w)) = db w).
Proof.
  repeat split.
  all: py_unfold; simpl.
  all: destruct (mysql_connect drv) as [ | e0] eqn:Hc;
    [rewrite (get_db_connection_ok drv w Hc)
    | rewrite (get_db_connection_stop drv w e0 Hc); done].
  all: py_simpl.
  all: repeat match goal with
         | |- context [match dict_get primary_keys ?t with _ => _ end] =>
             destruct (dict_get primary_keys t); py_simpl
         | |- context [if is_empty ?l then _ else _] => destruct (is_empty l); py_simpl
         | |- context [if String.eqb ?a ?b then _ else _] =>
             destruct (String.eqb a b); py_simpl
         | |- context [match execute ?d ?s ?q ?p with _ => _ end] =>
             destruct (execute d s q p) as [? ? | []]; py_simpl
         | |- context [if 0 <? ?n then _ else _] => destruct (0 <? n); py_simpl
         end.
  all: try done.
  all: rewrite !commits_app; unfold commits; simpl; lia.
Qed.

End Crud.

(** ** The analysis catalogue *)

Section Catalogue.

Context {Store : Type} (drv : Driver Store).

(** [analysis_query] on a catalogue name is [run_query] on the registered
    text, followed by the chart rule when there is one and the table is
    not empty. *)
Lemma analysis_query_known name sql param w df w' :
  dict_get queries name = Some sql ->
  run_query drv sql (if truthy param then Some [param] else None) w = (Ret df, w') ->
  analysis_query drv name param w =
    (Ret (Some df,
          match dict_get charts name with
          | Some rule => if negb (df_empty df) then Some (rule df) else None
          | None => None
          end), w').
Proof.
  intros Hq Hr. unfold analysis_query. rewrite Hq. unfold bind. by rewrite Hr.
Qed.

Lemma run_query_returns query params w :
  mysql_connect drv = ConnectOk ->
  exists df w', run_query drv query params w = (Ret df, w') /\
                sent (trace w') = sent (trace w) ++ [(query, params)].
Proof.
  intros Hc. destruct (read_sql drv (db w) query params) as [df | e] eqn:Hr.
  - eexists _, _. split; [by apply run_query_success |].
    by rewrite trace_after, sent_app.
  - eexists _, _. split; [by apply run_query_error |].
    by rewrite trace_after, sent_app.
Qed.

(** C7: for every name of the catalogue, once the connection is open,
    [analysis_query] returns the table [run_query] produced; the figure is
    [None] whenever that table is empty, chart rule or not; and a figure is
    built exactly when the table is not empty and the name has a chart
    rule, by applying that rule to the table. *)
Theorem analysis_empty_result_has_no_chart name sql param w :
  mysql_connect drv = ConnectOk ->
  dict_get queries name = Some sql ->
  exists df fig w',
    analysis_query drv name param w = (Ret (Some df, fig), w') /\
    run_query drv sql (if truthy param then Some [param] else None) w = (Ret df, w') /\
    (df_empty df = true -> fig = None) /\
    (forall chart, fig = Some chart ->
       df_empty df = false /\
       exists rule, dict_get charts name = Some rule /\ chart = rule df) /\
    (df_empty df = false ->
     forall rule, dict_get charts name = Some rule -> fig = Some (rule df)).
Proof.
  intros Hc Hq.
  destruct (run_query_returns sql (if truthy param then Some [param] else None) w Hc)
    as (df & w' & Hr & _).
  eexists df, _, w'. split; [by apply (analysis_query_known name sql) |].
  split; [exact Hr |].
  destruct (dict_get charts name) as [rule | ]; destruct (df_empty df); simpl;
    (split; [| split]); intros; try done; try congruence.
  match goal with H : Some _ = Some _ |- _ => injection H as <- end. eauto.
Qed.

(** C8 (amended): for every name of the catalogue, once the connection is
    open, [analysis_query] sends exactly the registered text, and binds
    the parameter (as the one-element tuple) exactly when the parameter
    passed is truthy, whether or not the text has a [%s] slot. *)
Theorem analysis_binds_param_iff_truthy name sql param w :
  mysql_connect drv = ConnectOk ->
  dict_get queries name = Some sql ->
  exists stmt,
    sent (trace (snd (analysis_query drv name param w))) = sent (trace w) ++ [stmt] /\
    stmt = (sql, if truthy param then Some [param] else None) /\
    (binds_param stmt = true <-> truthy param = true).
Proof.
  intros Hc Hq.
  destruct (run_query_returns sql (if truthy param then Some [param] else None) w Hc)
    as (df & w' & Hr & Hs).
  rewrite (analysis_query_known name sql param w df w' Hq Hr). simpl.
  eexists. split; [exact Hs |]. split; [reflexivity |].
  unfold binds_param. simpl. by destruct (truthy param).
Qed.

End Catalogue.

(** ** The catalogue and the statement texts, evaluated *)

(** Sixteen analyses, twelve of them with a chart rule, each chart rule
    on a name of the catalogue; one template has a parameter slot. *)
Example catalogue_shape :
  length queries = 16%nat /\
  length charts = 12%nat /\
  forallb (fun c => dict_has queries (fst c)) charts = true /\
  List.map fst (List.filter (fun q => expects_param (snd q)) queries)
    = ["Provider Contact Info by City"].
Proof. repeat split. Qed.

Example delete_listing_sql_text :
  delete_listing_sql = "DELETE FROM Food_Listings WHERE Food_ID=%s".
Proof. reflexivity. Qed.

Example insert_sql_text :
  insert_sql "Providers" (filter_inputs demo_inputs) =
    "INSERT INTO Providers (Provider_ID, Name, Contact, City) VALUES (%s, %s, %s, %s)".
Proof. reflexivity. Qed.

Example update_sql_text :
  update_sql "Providers" "Provider_ID" (filter_inputs demo_inputs) =
    "UPDATE Providers SET Provider_ID=%s, Name=%s, Contact=%s, City=%s WHERE Provider_ID=%s".
Proof. reflexivity. Qed.

(** Deleting a listing that does not exist still runs both deletes, and
    says "No record found". *)
Example delete_missing_listing :
  let w' := snd (delete_record demo_driver "Food_Listings" (VInt 9) (world_of demo_store)) in
  sent (trace w') =
    [(delete_claims_sql, Some [VInt 9]); (delete_listing_sql, Some [VInt 9])] /\
  reports (trace w') = [not_found_report "Food_ID" (VInt 9)] /\
  db w' = demo_store.
Proof. repeat split. Qed.

(** The report follows the primary delete alone: the leftover claim on
    listing 3 is removed and committed, and the report is still
    "No record found". *)
Example delete_orphan_claims :
  let w' := snd (delete_record demo_driver "Food_Listings" (VInt 3) (world_of orphan_store)) in
  reports (trace w') = [not_found_report "Food_ID" (VInt 3)] /\
  db w' = {| food_listings := [1]; claims := []; locked := [] |}.
Proof. repeat split. Qed.

(** Deleting the same listing twice: success, then "No record found". *)
Example delete_twice :
  let w1 := snd (delete_record demo_driver "Food_Listings" (VInt 1) (world_of demo_store)) in
  let w2 := snd (delete_record demo_driver "Food_Listings" (VInt 1) w1) in
  reports (trace w2) =
    [deleted_report "Food_Listings" (VInt 1); not_found_report "Food_ID" (VInt 1)] /\
  db w2 = db w1 /\
  is_open w2 0 = false /\ is_open w2 1 = false.
Proof. repeat split. Qed.

Lemma delete_food_listing_cascades_witness :
  exists w' r,
    delete_record demo_driver "Food_Listings" (VInt 1) (world_of demo_store) = (Ret tt, w') /\
    sent (trace w') =
      [("DELETE FROM Claims WHERE Food_ID=%s", Some [VInt 1]);
       ("DELETE FROM Food_Listings WHERE Food_ID=%s", Some [VInt 1])] /\
    db w' = {| food_listings := [2]; claims := [(12, 2)]; locked := [] |} /\
    reports (trace w') = [r] /\
    (r = not_found_report "Food_ID" (VInt 1) <-> 1 = 0).
Proof.
  apply (delete_food_listing_cascades demo_driver (VInt 1) (world_of demo_store)
           {| food_listings := [1; 2]; claims := [(12, 2)]; locked := [] |} 2
           {| food_listings := [2]; claims := [(12, 2)]; locked := [] |} 1);
    [reflexivity | reflexivity | reflexivity | lia].
Defined.

Lemma create_update_drop_blank_fields_witness :
  (exists w',
     create_record demo_driver "Providers" demo_inputs (world_of demo_store) = (Ret tt, w') /\
     sent (trace w') =
       [("INSERT INTO Providers (Provider_ID, Name, Contact, City) VALUES (%s, %s, %s, %s)",
         Some [VInt 101; VStr "Acme Foods"; VStr "555-0100"; VStr "Springfield"])]) /\
  (exists w',
     update_record demo_driver "Providers" (VInt 101) [("City", VStr ""); ("Type", VNone)]
                   (world_of demo_store) = (Ret tt, w') /\
     sent (trace w') = [] /\
     db w' = demo_store /\
     reports (trace w') = [warning_report "No fields to update"]).
Proof.
  split.
  - destruct (create_update_drop_blank_fields demo_driver "Providers" (VInt 101)
                demo_inputs (world_of demo_store) eq_refl) as (_ & _ & H).
    destruct H as [H _]; [discriminate |]. exact H.
  - destruct (create_update_drop_blank_fields demo_driver "Providers" (VInt 101)
                [("City", VStr ""); ("Type", VNone)] (world_of demo_store) eq_refl)
      as (_ & H & _).
    destruct (H eq_refl) as [_ Hu]. apply Hu. simpl. auto.
Defined.

Lemma update_zero_rows_reports_not_found_witness :
  exists w',
    update_record no_match_driver "Providers" (VInt 7) demo_inputs (world_of demo_store)
      = (Ret tt, w') /\
    reports (trace w') = [not_found_report "Provider_ID" (VInt 7)] /\
    level (not_found_report "Provider_ID" (VInt 7)) = Warning /\
    (forall e, not_found_report "Provider_ID" (VInt 7)
               <> error_report "Error updating record: " e) /\
    db w' = demo_store.
Proof.
  apply (update_zero_rows_reports_not_found no_match_driver "Providers" "Provider_ID"
           (VInt 7) demo_inputs (world_of demo_store));
    [reflexivity | reflexivity | discriminate | reflexivity].
Defined.

Lemma delete_food_listing_all_or_nothing_witness :
  exists w',
    delete_record demo_driver "Food_Listings" (VInt 2) (world_of busy_store) = (Ret tt, w') /\
    sent (trace w') =
      [("DELETE FROM Claims WHERE Food_ID=%s", Some [VInt 2]);
       ("DELETE FROM Food_Listings WHERE Food_ID=%s", Some [VInt 2])] /\
    commits (trace w') = 0%nat /\
    db w' = busy_store /\
    is_open w' 0 = false /\
    reports (trace w') =
      [error_report "Error deleting record: "
                    (MySQLError "1205 (HY000): Lock wait timeout exceeded")].
Proof.
  destruct (delete_food_listing_all_or_nothing demo_driver (VInt 2) (world_of busy_store)
              {| food_listings := [1; 2]; claims := [(10, 1); (11, 1)]; locked := [2] |} 1
              eq_refl eq_refl) as [_ H].
  exact (H (MySQLError "1205 (HY000): Lock wait timeout exceeded") eq_refl).
Defined.

(** C6, as stated, fails for [create_record]: "Donors" is not a table of
    the schema, yet the INSERT on it is sent to the store (which is what
    rejects it). *)
Lemma create_record_unknown_table_sends_insert :
  ~ In "Donors" known_tables /\
  sent (trace (snd (create_record demo_driver "Donors" [("Name", VStr "Asha")]
                                  (world_of demo_store))))
    = [("INSERT INTO Donors (Name) VALUES (%s)", Some [VStr "Asha"])] /\
  ~ refused (create_record demo_driver "Donors" [("Name", VStr "Asha")])
            (world_of demo_store).
Proof.
  split; [| split].
  - unfold known_tables. simpl. intuition discriminate.
  - reflexivity.
  - intros (w' & r & H & Hs & _). vm_compute in H. injection H as <-.
    vm_compute in Hs. discriminate.
Qed.

Lemma unknown_table_lookup_fails_witness :
  refused (update_record demo_driver "Donors" (VInt 1) [("Name", VStr "Asha")])
          (world_of demo_store) /\
  refused (delete_record demo_driver "Donors" (VInt 1)) (world_of demo_store) /\
  reports (trace (snd (delete_record demo_driver "Donors" (VInt 1) (world_of demo_store))))
    = [unexpected_error_report (KeyError "Donors")].
Proof.
  assert (Hk : ~ In "Donors" known_tables).
  { unfold known_tables. simpl. intuition discriminate. }
  destruct (unknown_table_lookup_fails demo_driver "Donors" (VInt 1)
              [("Name", VStr "Asha")] (world_of demo_store) eq_refl Hk)
    as (Hu & Hd & _ & Hr & _).
  split; [exact Hu | split; [exact Hd | exact Hr]].
Defined.

Lemma analysis_empty_result_has_no_chart_witness :
  exists df fig w',
    analysis_query demo_driver "Claims Status Percentage" VNone (world_of demo_store)
      = (Ret (Some df, fig), w') /\
    (df_empty df = true -> fig = None).
Proof.
  destruct (analysis_empty_result_has_no_chart demo_driver "Claims Status Percentage"
              _ VNone (world_of demo_store) eq_refl eq_refl)
    as (df & fig & w' & Ha & _ & He & _).
  exists df, fig, w'. split; [exact Ha | exact He].
Defined.

(** C8, as stated, fails in both directions: a parameter passed with a
    query that has no slot is bound, and the one query with a slot runs
    without a parameter when the city is left empty. *)
Lemma analysis_binding_ignores_template :
  (dict_get queries "Total Food Quantity Available" = Some total_quantity_sql /\
   expects_param total_quantity_sql = false /\
   sent (trace (snd (analysis_query demo_driver "Total Food Quantity Available"
                                    (VStr "Springfield") (world_of demo_store))))
     = [(total_quantity_sql, Some [VStr "Springfield"])]) /\
  (exists sql,
     dict_get queries "Provider Contact Info by City" = Some sql /\
     expects_param sql = true /\
     sent (trace (snd (analysis_query demo_driver "Provider Contact Info by City"
                                      (VStr "") (world_of demo_store))))
       = [(sql, None)]).
Proof.
  split.
  - repeat split.
  - eexists. split; [reflexivity |]. split; reflexivity.
Qed.

Lemma analysis_binds_param_iff_truthy_witness :
  exists stmt,
    sent (trace (snd (analysis_query demo_driver "Total Food Quantity Available"
                                     (VStr "Springfield") (world_of demo_store))))
      = [stmt] /\
    stmt = (total_quantity_sql, Some [VStr "Springfield"]) /\
    (binds_param stmt = true <-> true = true).
Proof.
  apply (analysis_binds_param_iff_truthy demo_driver "Total Food Quantity Available"
           total_quantity_sql (VStr "Springfield") (world_of demo_store));
    reflexivity.
Defined.

Lemma zero_like_values_never_written_witness :
  filter_inputs zero_inputs = [("Food_Name", VStr "Rice")] /\
  ~ In ("Quantity", VBool false) (filter_inputs zero_inputs) /\
  ~ In ("Provider_ID", VFloat (S754_zero false)) (filter_inputs zero_inputs).
Proof.
  destruct (zero_like_values_never_written demo_driver "Food_Listings" (VInt 1)
              zero_inputs (world_of demo_store)) as (_ & _ & _ & H & _).
  split; [reflexivity | split; apply H; reflexivity].
Defined.

(** * Properties of the rest of the script *)

(** ** Running core functions from a page *)

Lemma core_run {Store A : Type} (m : M (World Store) A) (p : Page Store) r w' evs :
  m (world p) = (r, w') ->
  trace w' = trace (world p) ++ evs ->
  core m p = (r, {| screen := screen p ++ List.map Core evs; world := w' |}).
Proof.
  intros Hm Ht. unfold core. rewrite Hm, Ht. by rewrite drop_app_length.
Qed.

Lemma shown_app (a b : list UiEvent) : shown (a ++ b) = shown a ++ shown b.
Proof. apply omap_app. Qed.

Lemma shown_core (evs : list Event) : shown (List.map Core evs) = [].
Proof. induction evs; [reflexivity | exact IHevs]. Qed.

(** A connection that was opened and closed again changes nothing about
    which connections are open. *)
Lemma is_open_closed_new {Store : Type} (w : World Store) s (x : ConnState Store) evs c :
  conn_open x = false ->
  is_open (after w s x evs) c = is_open w c.
Proof.
  intros Hx. unfold is_open, after. simpl.
  destruct (decide (c < length (conns w))%nat) as [Hlt | Hge].
  - by rewrite lookup_app_l.
  - rewrite (lookup_ge_None_2 (conns w) c) by lia.
    destruct (decide (c = length (conns w))) as [-> | Hne].
    + by rewrite lookup_new.
    + by rewrite lookup_ge_None_2 by (rewrite length_app; simpl; lia).
Qed.

(** ** The connection test and the start-up gate *)

Section Startup.

Context {Store : Type} (drv : Driver Store).

Lemma test_db_connection_ok w :
  mysql_connect drv = ConnectOk ->
  let c := length (conns w) in
  test_db_connection drv w =
    (Ret true, after w (db w) (closed_conn (db w) (-1)) [EvConnect c; EvClose c]).
Proof.
  intros Hc. unfold test_db_connection, connector_connect. py_unfold.
  rewrite Hc. py_simpl. py_done.
Qed.

Lemma test_db_connection_failed w e :
  mysql_connect drv = ConnectRaise e ->
  test_db_connection drv w = (Ret false, log (EvReport (test_failed_report e)) w).
Proof.
  intros Hc. unfold test_db_connection, connector_connect. py_unfold.
  by rewrite Hc.
Qed.

(** X1: [test_db_connection] always returns, never stops the script; its
    answer is [True] exactly when the connection can be opened; it leaves
    no connection open, sends no statement, commits nothing and leaves the
    database alone; it reports nothing on success and exactly one
    "Database connection test failed" error otherwise. *)
Theorem test_db_connection_answers w :
  exists ok w',
    test_db_connection drv w = (Ret ok, w') /\
    (ok = true <-> mysql_connect drv = ConnectOk) /\
    (forall c, is_open w' c = is_open w c) /\
    db w' = db w /\
    sent (trace w') = sent (trace w) /\
    commits (trace w') = commits (trace w) /\
    (ok = true -> reports (trace w') = reports (trace w)) /\
    (forall e, mysql_connect drv = ConnectRaise e ->
               reports (trace w') = reports (trace w) ++ [test_failed_report e]).
Proof.
  destruct (mysql_connect drv) as [ | e] eqn:Hc.
  - eexists true, _. split; [by apply test_db_connection_ok |].
    rewrite trace_after, sent_app, commits_app, reports_app, db_after. simpl.
    rewrite !app_nil_r. unfold commits at 2. simpl.
    repeat split; try done; try lia.
    intros c. by apply is_open_closed_new.
  - eexists false, _. split; [by apply test_db_connection_failed |].
    simpl. rewrite sent_app, commits_app, reports_app. simpl.
    rewrite !app_nil_r. unfold commits at 2. simpl.
    repeat split; try done; try lia.
    intros e' [= <-]. reflexivity.
Qed.

(** X2: the start-up gate lets the script continue exactly when the
    connection test succeeds, and then nothing was reported or shown and
    no connection stays open.  When the store cannot be reached the gate
    reports the failed test and "Cannot connect to database", shows the
    deployment hint and stops the script: nothing after it runs. *)
Theorem startup_gate_stops_without_store p :
  (mysql_connect drv = ConnectOk ->
   exists p',
     startup_gate drv p = (Ret tt, p') /\
     reports (trace (world p')) = reports (trace (world p)) /\
     shown (screen p') = shown (screen p) /\
     db (world p') = db (world p) /\
     forall c, is_open (world p') c = is_open (world p) c) /\
  (forall e,
     mysql_connect drv = ConnectRaise e ->
     exists p',
       startup_gate drv p = (Raise StopException, p') /\
       reports (trace (world p')) =
         reports (trace (world p)) ++ [test_failed_report e; cannot_connect_report] /\
       shown (screen p') = shown (screen p) ++ [Info deployment_hint] /\
       conns (world p') = conns (world p) /\
       db (world p') = db (world p)).
Proof.
  split.
  - intros Hc. unfold startup_gate, bind.
    rewrite (core_run _ p _ _ _ (test_db_connection_ok (world p) Hc) eq_refl).
    simpl. eexists. split; [reflexivity |]. simpl.
    rewrite reports_app, shown_app. simpl. rewrite !app_nil_r.
    repeat split. intros c. by apply is_open_closed_new.
  - intros e Hc. unfold startup_gate, bind.
    rewrite (core_run _ p _ _ [EvReport (test_failed_report e)]
               (test_db_connection_failed (world p) e Hc) eq_refl).
    simpl. unfold core, show, st_error, st_stop, emit. simpl.
    rewrite !drop_app_length. simpl.
    eexists. split; [reflexivity |]. simpl.
    rewrite <- !app_assoc, !reports_app, !shown_app, ?drop_all. simpl.
    by rewrite ?app_nil_r.
Qed.

End Startup.

(** ** [run_query] and [fetch_table_data] never write *)

Section ReadOnly.

Context {Store : Type} (drv : Driver Store).

Lemma run_query_effects query params w :
  let w' := snd (run_query drv query params w) in
  db w' = db w /\
  commits (trace w') = commits (trace w) /\
  (sent (trace w') = sent (trace w) \/
   sent (trace w') = sent (trace w) ++ [(query, params)]).
Proof.
  simpl. destruct (mysql_connect drv) as [ | e] eqn:Hc.
  - destruct (read_sql drv (db w) query params) as [df | e] eqn:Hr.
    + rewrite (run_query_success drv query params w df Hc Hr). simpl.
      rewrite sent_app, commits_app. unfold commits at 2. simpl.
      repeat split; [lia | by right].
    + rewrite (run_query_error drv query params w e Hc Hr). simpl.
      rewrite sent_app, commits_app. unfold commits at 2. simpl.
      repeat split; [lia | by right].
  - rewrite (run_query_stop drv query params w e Hc). simpl.
    rewrite sent_app, commits_app. unfold commits at 2. simpl.
    rewrite app_nil_r. repeat split; [lia | by left].
Qed.


End ReadOnly.

(** ** More on the CRUD engine *)

Lemma is_open_same_conns {Store : Type} (w w' : World Store) c :
  conns w' = conns w -> is_open w' c = is_open w c.
Proof. intros H. unfold is_open. by rewrite H. Qed.

Lemma is_open_closed_snoc {Store : Type} (w w' : World Store) (x : ConnState Store) c :
  conns w' = conns w ++ [x] -> conn_open x = false -> is_open w' c = is_open w c.
Proof.
  intros H Hx.
  rewrite <- (is_open_closed_new w (db w) x [] c Hx).
  unfold is_open, after. simpl. by rewrite H.
Qed.

(** Case analysis on everything a CRUD body asks of its environment. *)
Ltac crud_cases :=
  repeat match goal with
         | |- context [match dict_get primary_keys ?t with _ => _ end] =>
             destruct (dict_get primary_keys t); py_simpl
         | |- context [if is_empty ?l then _ else _] => destruct (is_empty l); py_simpl
         | |- context [if String.eqb ?a ?b then _ else _] =>
             destruct (String.eqb a b); py_simpl
         | |- context [match execute ?d ?s ?q ?p with _ => _ end] =>
             destruct (execute d s q p) as [? ? | []]; py_simpl
         | |- context [if 0 <? ?n then _ else _] => destruct (0 <? n); py_simpl
         end.

Section CrudMore.

Context {Store : Type} (drv : Driver Store).

(** X4: none of [create_record], [update_record], [delete_record] changes
    which connections are open: whatever the table, the fields and the
    answers of the driver, the connection a call opens is closed again
    before the call ends, and when none could be opened none is left. *)
Theorem crud_never_leaks table_name record_id inputs w :
  (forall c, is_open (snd (create_record drv table_name inputs w)) c = is_open w c) /\
  (forall c, is_open (snd (update_record drv table_name record_id inputs w)) c
             = is_open w c) /\
  (forall c, is_open (snd (delete_record drv table_name record_id w)) c = is_open w c).
Proof.
  repeat split; intros c.
  all: py_unfold; simpl.
  all: destruct (mysql_connect drv) as [ | e0] eqn:Hc;
    [rewrite (get_db_connection_ok drv w Hc)
    | rewrite (get_db_connection_stop drv w e0 Hc); by apply is_open_same_conns].
  all: py_simpl; crud_cases.
  all: eapply is_open_closed_snoc; [simpl; reflexivity | reflexivity].
Qed.

(** X5: [create_record] with at least one surviving field is all or
    nothing.  If the INSERT executes, it is committed, the database is
    what the statement made of it and "Record created successfully" is
    reported; if it raises, nothing is committed, the database is as
    before and exactly one error is reported, "Error creating record" for
    a [mysql.connector.Error] and "Unexpected error" for anything else. *)
Theorem create_record_all_or_nothing table_name inputs w :
  mysql_connect drv = ConnectOk ->
  filter_inputs inputs <> [] ->
  let kept := filter_inputs inputs in
  (forall s' n,
     execute drv (db w) (insert_sql table_name kept) (values kept) = ExecOk s' n ->
     exists w',
       create_record drv table_name inputs w = (Ret tt, w') /\
       db w' = s' /\
       commits (trace w') = S (commits (trace w)) /\
       reports (trace w') = reports (trace w) ++ [created_report table_name]) /\
  (forall e,
     execute drv (db w) (insert_sql table_name kept) (values kept) = ExecRaise e ->
     exists w',
       create_record drv table_name inputs w = (Ret tt, w') /\
       db w' = db w /\
       commits (trace w') = commits (trace w) /\
       reports (trace w') =
         reports (trace w) ++
         [ {| level := Error;
              message := [Lit (if is_mysql_error e then "Error creating record: "
                               else "Unexpected error: ");
                          FmtExn e] |} ]).
Proof.
  intros Hc Hf kept. subst kept. split.
  - intros s' n He. eexists. split; [by eapply create_record_inserted |].
    rewrite trace_after, commits_app, reports_app, db_after.
    unfold commits. simpl. repeat split. lia.
  - intros e He. eexists. split; [by eapply create_record_failed |].
    rewrite trace_after, commits_app, reports_app, db_after.
    unfold commits. simpl. repeat split. lia.
Qed.

(** X6: [update_record] on a table of the schema with at least one
    surviving field commits what the UPDATE did and reports "Record ...
    updated successfully" exactly when [cursor.rowcount] is positive,
    "No record found" otherwise; if the UPDATE raises, nothing is
    committed, the database is as before and one error is reported. *)
Theorem update_record_outcomes table_name pk record_id inputs w :
  mysql_connect drv = ConnectOk ->
  dict_get primary_keys table_name = Some pk ->
  filter_inputs inputs <> [] ->
  let kept := filter_inputs inputs in
  (forall s' n,
     execute drv (db w) (update_sql table_name pk kept) (values kept ++ [record_id])
       = ExecOk s' n ->
     exists w' r,
       update_record drv table_name record_id inputs w = (Ret tt, w') /\
       db w' = s' /\
       commits (trace w') = S (commits (trace w)) /\
       reports (trace w') = reports (trace w) ++ [r] /\
       (r = updated_report record_id <-> 0 < n) /\
       (r = not_found_report pk record_id <-> n <= 0)) /\
  (forall e,
     execute drv (db w) (update_sql table_name pk kept) (values kept ++ [record_id])
       = ExecRaise e ->
     exists w',
       update_record drv table_name record_id inputs w = (Ret tt, w') /\
       db w' = db w /\
       commits (trace w') = commits (trace w) /\
       reports (trace w') =
         reports (trace w) ++ [error_report "Error updating record: " e]).
Proof.
  intros Hc Hk Hf kept. subst kept. split.
  - intros s' n He. eexists _, _. split; [by eapply update_record_executed |].
    rewrite trace_after, commits_app, reports_app, db_after.
    unfold commits. simpl. repeat split; try lia.
    all: destruct (Z.ltb_spec 0 n); try done; try lia.
  - intros e He. eexists. split; [by eapply update_record_failed |].
    rewrite trace_after, commits_app, reports_app, db_after.
    unfold commits. simpl. repeat split. lia.
Qed.

(** X7: only [Food_Listings] has a dependent clean-up.  On any other table
    of the schema [delete_record] sends exactly one statement, the DELETE
    on that table by its primary key; it is committed and reported by its
    row count if it executes, and nothing is committed if it raises. *)
Theorem delete_other_table_single_statement table_name pk record_id w :
  mysql_connect drv = ConnectOk ->
  dict_get primary_keys table_name = Some pk ->
  table_name <> "Food_Listings" ->
  let w' := snd (delete_record drv table_name record_id w) in
  fst (delete_record drv table_name record_id w) = Ret tt /\
  sent (trace w') = sent (trace w) ++ [(delete_sql table_name pk, Some [record_id])] /\
  (forall s' n,
     execute drv (db w) (delete_sql table_name pk) [record_id] = ExecOk s' n ->
     db w' = s' /\
     reports (trace w') =
       reports (trace w) ++ [if 0 <? n then deleted_report table_name record_id
                             else not_found_report pk record_id]) /\
  (forall e,
     execute drv (db w) (delete_sql table_name pk) [record_id] = ExecRaise e ->
     db w' = db w /\
     commits (trace w') = commits (trace w) /\
     reports (trace w') = reports (trace w) ++ [error_report "Error deleting record: " e]).
Proof.
  intros Hc Hk Hne. simpl.
  apply String.eqb_neq in Hne.
  py_unfold. simpl. rewrite (get_db_connection_ok drv w Hc). rewrite Hk. py_simpl.
  rewrite Hne. py_simpl.
  destruct (execute drv (db w) (delete_sql table_name pk) [record_id])
    as [s' n | e] eqn:He; py_simpl.
  - destruct (0 <? n) eqn:En; py_simpl;
      rewrite <- ?app_assoc, !sent_app, !reports_app; simpl;
      (split; [done |]); (split; [done |]); (split; [| intros ? [=]]);
      intros ? ? [= <- <-]; rewrite En; by split.
  - destruct e; py_simpl; rewrite <- ?app_assoc, !sent_app, !reports_app, !commits_app;
      unfold commits; simpl;
      (split; [done |]); (split; [done |]); (split; [intros ? ? [=] |]);
      intros ? [= <-]; repeat split; lia.
Qed.

End CrudMore.

(** ** Slots and bound parameters agree *)

Lemma append_cons (c : ascii) (a b : string) : String c a +:+ b = String c (a +:+ b).
Proof. reflexivity. Qed.

Lemma append_assoc (a b c : string) : (a +:+ b) +:+ c = a +:+ (b +:+ c).
Proof.
  induction a as [ | x a IH]; [reflexivity |]. by rewrite !append_cons, IH.
Qed.

Lemma count_slots_free (p r : string) :
  percent_free p = true -> count_slots (p +:+ r) = count_slots r.
Proof.
  induction p as [ | c p IH]; [reflexivity |].
  rewrite append_cons. simpl.
  intros [Hc Hp]%andb_prop. apply negb_true_iff in Hc. rewrite Hc. simpl. by apply IH.
Qed.

Lemma count_slots_slot (r : string) : count_slots ("%s" +:+ r) = S (count_slots r).
Proof. reflexivity. Qed.

Lemma percent_free_app (a b : string) :
  percent_free (a +:+ b) = percent_free a && percent_free b.
Proof.
  induction a as [ | c a IH]; [reflexivity |].
  rewrite append_cons. simpl. by rewrite IH, andb_assoc.
Qed.

Lemma percent_free_join (names : list string) :
  forallb percent_free names = true -> percent_free (join ", " names) = true.
Proof.
  induction names as [ | a [ | b rest] IH]; simpl; intros H.
  - reflexivity.
  - by rewrite andb_true_r in H.
  - apply andb_prop in H as [Ha H]. rewrite !percent_free_app, Ha. simpl.
    by apply IH.
Qed.

(** [", ".join(["%s"] * n)] followed by anything that adds no slot. *)
Lemma count_slots_placeholders (n : nat) (tail : string) :
  count_slots (join ", " (List.repeat "%s" n) +:+ tail) = (n + count_slots tail)%nat.
Proof.
  induction n as [ | [ | n] IH].
  - reflexivity.
  - reflexivity.
  - change (List.repeat "%s" (S (S n))) with ("%s" :: List.repeat "%s" (S n)).
    change (join ", " ("%s" :: List.repeat "%s" (S n)))
      with ("%s" +:+ ", " +:+ join ", " (List.repeat "%s" (S n))).
    rewrite !append_assoc, count_slots_slot.
    rewrite (count_slots_free ", ") by reflexivity.
    by rewrite IH.
Qed.

(** [", ".join([f"{k}=%s" for k in keys])] followed by anything. *)
Lemma count_slots_set_clause (names : list string) (tail : string) :
  forallb percent_free names = true ->
  count_slots (join ", " (List.map (fun k => k +:+ "=%s") names) +:+ tail)
    = (length names + count_slots tail)%nat.
Proof.
  induction names as [ | a [ | b rest] IH]; intros H.
  - reflexivity.
  - simpl in H. rewrite andb_true_r in H. simpl.
    rewrite append_assoc, (count_slots_free a) by done. reflexivity.
  - apply andb_prop in H as [Ha H].
    change (join ", " (List.map (fun k => k +:+ "=%s") (a :: b :: rest)))
      with ((a +:+ "=%s") +:+ ", " +:+
            join ", " (List.map (fun k => k +:+ "=%s") (b :: rest))).
    rewrite !append_assoc, (count_slots_free a) by done.
    change ("=%s" +:+ ", " +:+
            join ", " (List.map (fun k => k +:+ "=%s") (b :: rest)) +:+ tail)
      with ("=" +:+ "%s" +:+ ", " +:+
            join ", " (List.map (fun k => k +:+ "=%s") (b :: rest)) +:+ tail).
    rewrite (count_slots_free "=") by reflexivity.
    rewrite count_slots_slot, (count_slots_free ", ") by reflexivity.
    rewrite (IH H). simpl. lia.
Qed.

Lemma count_slots_insert table_name (kept : Fields) :
  percent_free table_name = true ->
  forallb percent_free (keys kept) = true ->
  count_slots (insert_sql table_name kept) = length (values kept).
Proof.
  intros Ht Hk. unfold insert_sql.
  rewrite (count_slots_free "INSERT INTO ") by reflexivity.
  rewrite (count_slots_free table_name) by done.
  rewrite (count_slots_free " (") by reflexivity.
  rewrite (count_slots_free (join ", " (keys kept))) by by apply percent_free_join.
  rewrite (count_slots_free ") VALUES (") by reflexivity.
  rewrite count_slots_placeholders. unfold values. rewrite length_map. simpl. lia.
Qed.

Lemma count_slots_update table_name pk (kept : Fields) (record_id : Value) :
  percent_free table_name = true ->
  percent_free pk = true ->
  forallb percent_free (keys kept) = true ->
  count_slots (update_sql table_name pk kept) = length (values kept ++ [record_id]).
Proof.
  intros Ht Hp Hk. unfold update_sql.
  rewrite (count_slots_free "UPDATE ") by reflexivity.
  rewrite (count_slots_free table_name) by done.
  rewrite (count_slots_free " SET ") by reflexivity.
  rewrite count_slots_set_clause by done.
  rewrite (count_slots_free " WHERE ") by reflexivity.
  rewrite (count_slots_free pk) by done.
  unfold values, keys. rewrite length_app, !length_map. simpl. lia.
Qed.

Lemma count_slots_delete table_name pk :
  percent_free table_name = true ->
  percent_free pk = true ->
  count_slots (delete_sql table_name pk) = 1%nat.
Proof.
  intros Ht Hp. unfold delete_sql.
  rewrite (count_slots_free "DELETE FROM ") by reflexivity.
  rewrite (count_slots_free table_name) by done.
  rewrite (count_slots_free " WHERE ") by reflexivity.
  by rewrite (count_slots_free pk) by done.
Qed.

Lemma primary_keys_percent_free table_name pk :
  dict_get primary_keys table_name = Some pk -> percent_free pk = true.
Proof.
  unfold primary_keys. rewrite !dict_get_cons.
  repeat match goal with
         | |- context [String.eqb ?a table_name] => destruct (String.eqb a table_name)
         end; intros [= <-]; reflexivity.
Qed.

Lemma forallb_filter_keys (inputs : Fields) :
  forallb percent_free (keys inputs) = true ->
  forallb percent_free (keys (filter_inputs inputs)) = true.
Proof.
  unfold keys, filter_inputs. rewrite !forallb_forall.
  intros H k Hin. apply H. apply in_map_iff in Hin as (kv & <- & Hkv).
  apply in_map. by apply List.filter_In in Hkv as [? _].
Qed.

Section Arity.

Context {Store : Type} (drv : Driver Store).

(** What [delete_record] sends: nothing, the dependent DELETE alone (when
    it raised), the primary DELETE, or both. *)
Lemma delete_record_sent table_name record_id w :
  exists issued,
    sent (trace (snd (delete_record drv table_name record_id w))) = sent (trace w) ++ issued /\
    forall stmt, In stmt issued ->
      stmt = (delete_claims_sql, Some [record_id]) \/
      exists pk, dict_get primary_keys table_name = Some pk /\
                 stmt = (delete_sql table_name pk, Some [record_id]).
Proof.
  py_unfold. simpl.
  destruct (mysql_connect drv) as [ | e0] eqn:Hc;
    [rewrite (get_db_connection_ok drv w Hc)
    | rewrite (get_db_connection_stop drv w e0 Hc)].
  - destruct (dict_get primary_keys table_name) as [pk | ] eqn:Hk; py_simpl.
    + destruct (String.eqb table_name "Food_Listings"); py_simpl;
        repeat match goal with
               | |- context [match execute ?d ?s ?q ?p with _ => _ end] =>
                   destruct (execute d s q p) as [? ? | []]; py_simpl
               | |- context [if 0 <? ?n then _ else _] => destruct (0 <? n); py_simpl
               end;
        rewrite <- ?app_assoc, !sent_app; simpl;
        (eexists; split; [reflexivity |]);
        intros stmt Hin; simpl in Hin; intuition eauto.
    + exists []. rewrite <- ?app_assoc, !sent_app. simpl. split; [done | intros ? []].
  - exists []. simpl. rewrite sent_app. simpl. split; [done | intros ? []].
Qed.

(** X8: when the table name and the column names contain no percent
    sign, every statement that [create_record], [update_record] or
    [delete_record] sends has exactly as many [%s] slots as parameters
    bound to it: values are passed beside the text, never pasted into it. *)
Theorem slots_match_parameters table_name record_id inputs w :
  percent_free table_name = true ->
  forallb percent_free (keys inputs) = true ->
  forall op,
    In op [create_record drv table_name inputs;
           update_record drv table_name record_id inputs;
           delete_record drv table_name record_id] ->
    exists issued,
      sent (trace (snd (op w))) = sent (trace w) ++ issued /\
      forall sql params,
        In (sql, params) issued ->
        exists ps, params = Some ps /\ count_slots sql = length ps.
Proof.
  intros Ht Hk op [<- | [<- | [<- | []]]].
  - destruct (create_record_sent drv table_name inputs w) as (issued & Hs & Hi).
    exists issued. split; [exact Hs |].
    intros sql params Hin. destruct Hi as [-> | ->]; [destruct Hin |].
    destruct Hin as [[= <- <-] | []]. eexists. split; [reflexivity |].
    apply count_slots_insert; [done | by apply forallb_filter_keys].
  - destruct (update_record_sent drv table_name record_id inputs w) as (issued & Hs & Hi).
    exists issued. split; [exact Hs |].
    intros sql params Hin. destruct Hi as [-> | (pk & Hpk & ->)]; [destruct Hin |].
    destruct Hin as [[= <- <-] | []]. eexists. split; [reflexivity |].
    apply count_slots_update;
      [done | by eapply primary_keys_percent_free | by apply forallb_filter_keys].
  - destruct (delete_record_sent table_name record_id w) as (issued & Hs & Hi).
    exists issued. split; [exact Hs |].
    intros sql params Hin. destruct (Hi _ Hin) as [[= -> ->] | (pk & Hpk & [= -> ->])].
    + eexists. split; reflexivity.
    + eexists. split; [reflexivity |].
      rewrite count_slots_delete; [done | done | by eapply primary_keys_percent_free].
Qed.

End Arity.

(** ** The CRUD forms *)

Lemma dict_set_fresh {A : Type} (d : list (string * A)) (key : string) (v : A) :
  ~ In key (List.map fst d) -> dict_set d key v = d ++ [(key, v)].
Proof.
  induction d as [ | [k x] d IH]; simpl; intros Hn; [reflexivity |].
  destruct (String.eqb_spec k key) as [-> | Hne]; [tauto |].
  rewrite IH; [reflexivity | tauto].
Qed.

(** On distinct field names the loop of the "Create" form lists the fields
    in their order, each with what its widget returned. *)
Lemma create_form_inputs_map (fields : list string) (entry : string -> Value) :
  List.NoDup fields ->
  create_form_inputs fields entry = List.map (fun f => (f, entry f)) fields.
Proof.
  unfold create_form_inputs.
  enough (H : forall acc : Fields,
             List.NoDup (List.map fst acc ++ fields) ->
             fold_left (fun inputs field => dict_set inputs field (entry field)) fields acc
             = acc ++ List.map (fun f => (f, entry f)) fields).
  { intros Hnd. exact (H [] Hnd). }
  induction fields as [ | f fields IH]; intros acc Hnd; simpl.
  - by rewrite app_nil_r.
  - rewrite dict_set_fresh.
    + rewrite IH.
      * by rewrite <- app_assoc.
      * rewrite List.map_app. simpl. by rewrite <- app_assoc.
    + apply NoDup_remove_2 in Hnd. intros Hin. apply Hnd. apply in_or_app. by left.
Qed.

(** The loop of the "Update" form does the same on the fields other than
    the primary key. *)
Lemma update_form_inputs_map (fields : list string) (pk : string)
    (entry : string -> Value) :
  List.NoDup fields ->
  update_form_inputs fields pk entry =
    List.map (fun f => (f, entry f))
             (List.filter (fun f => negb (String.eqb f pk)) fields).
Proof.
  unfold update_form_inputs.
  enough (H : forall acc : Fields,
             List.NoDup (List.map fst acc ++ fields) ->
             fold_left (fun inputs field =>
                          if String.eqb field pk then inputs
                          else dict_set inputs field (entry field)) fields acc
             = acc ++ List.map (fun f => (f, entry f))
                               (List.filter (fun f => negb (String.eqb f pk)) fields)).
  { intros Hnd. exact (H [] Hnd). }
  induction fields as [ | f fields IH]; intros acc Hnd; simpl.
  - by rewrite app_nil_r.
  - destruct (String.eqb f pk); simpl.
    + apply IH. apply NoDup_remove_1 in Hnd. exact Hnd.
    + rewrite dict_set_fresh.
      * rewrite IH; [by rewrite <- app_assoc |].
        rewrite List.map_app. simpl. by rewrite <- app_assoc.
      * apply NoDup_remove_2 in Hnd. intros Hin. apply Hnd. apply in_or_app. by left.
Qed.

Lemma filter_inputs_map (fields : list string) (entry : string -> Value) :
  filter_inputs (List.map (fun f => (f, entry f)) fields) =
    List.map (fun f => (f, entry f))
             (List.filter (fun f => negb (is_blank (entry f))) fields).
Proof.
  rewrite filter_inputs_blank.
  induction fields as [ | f fields IH]; simpl; [reflexivity |].
  destruct (is_blank (entry f)); simpl; by rewrite IH.
Qed.

Lemma In_entry_map (fields : list string) (entry : string -> Value) f :
  In (f, entry f) (List.map (fun g => (g, entry g)) fields) <-> In f fields.
Proof.
  rewrite in_map_iff. split.
  - intros (g & [= -> _] & Hin). exact Hin.
  - intros Hin. by exists f.
Qed.

(** What the widgets return and the filtering rule. *)
Lemma number_from_one_kept m v :
  1 <= m -> widget_returns (NumberInput m) v = true -> is_blank v = false.
Proof.
  destruct v; simpl; try discriminate. intros Hm Hz%Z.leb_le. apply Z.eqb_neq. lia.
Qed.

Lemma date_kept v : widget_returns DateInput v = true -> is_blank v = false.
Proof. destruct v; simpl; try discriminate. reflexivity. Qed.

Lemma text_kept_iff v :
  widget_returns TextInput v = true -> (is_blank v = false <-> v <> VStr "").
Proof.
  destruct v as [ | s | | | | ]; simpl; try discriminate. intros _.
  destruct (String.eqb_spec s "") as [-> | Hne]; split; try done.
  intros _ [= ->]. done.
Qed.

(** The two dictionaries of the CRUD tab agree: each table's field list has
    distinct names and starts with the table's primary key, which both
    forms show as a number widget. *)
Lemma table_fields_shape table_name fields :
  dict_get table_fields table_name = Some fields ->
  exists pk rest,
    fields = pk :: rest /\
    dict_get primary_keys table_name = Some pk /\
    List.NoDup fields /\
    create_widget pk = NumberInput 1.
Proof.
  unfold table_fields. rewrite !dict_get_cons.
  repeat match goal with
         | |- context [String.eqb ?a table_name] =>
             destruct (String.eqb_spec a table_name) as [<- | ?]
         end; intros [= <-].
  all: eexists _, _; split; [reflexivity |]; split; [reflexivity |]; split;
    [| reflexivity].
  all: repeat (constructor; [simpl; intuition discriminate |]); constructor.
Qed.

Section FormProps.

Context {Store : Type} (drv : Driver Store).

Lemma create_record_sends_insert table_name inputs w :
  mysql_connect drv = ConnectOk ->
  filter_inputs inputs <> [] ->
  exists w',
    create_record drv table_name inputs w = (Ret tt, w') /\
    sent (trace w') =
      sent (trace w) ++
      [(insert_sql table_name (filter_inputs inputs), Some (values (filter_inputs inputs)))].
Proof.
  intros Hc Hf.
  destruct (execute drv (db w) (insert_sql table_name (filter_inputs inputs))
                    (values (filter_inputs inputs))) as [s' n | e] eqn:He.
  - eexists. split; [by eapply create_record_inserted |]. by rewrite trace_after, sent_app.
  - eexists. split; [by eapply create_record_failed |]. by rewrite trace_after, sent_app.
Qed.

Lemma update_record_sends_update table_name pk record_id inputs w :
  mysql_connect drv = ConnectOk ->
  dict_get primary_keys table_name = Some pk ->
  filter_inputs inputs <> [] ->
  exists w',
    update_record drv table_name record_id inputs w = (Ret tt, w') /\
    sent (trace w') =
      sent (trace w) ++
      [(update_sql table_name pk (filter_inputs inputs),
        Some (values (filter_inputs inputs) ++ [record_id]))].
Proof.
  intros Hc Hk Hf.
  destruct (execute drv (db w) (update_sql table_name pk (filter_inputs inputs))
                    (values (filter_inputs inputs) ++ [record_id])) as [s' n | e] eqn:He.
  - eexists. split; [by eapply update_record_executed |]. by rewrite trace_after, sent_app.
  - eexists. split; [by eapply update_record_failed |]. by rewrite trace_after, sent_app.
Qed.

(** X9: a "Create" form can never come back empty.  For every table of
    the form and entries that fit its widgets, the primary key and every
    other number or date field reach the statement, a text field reaches
    it exactly when it was filled in, and [create_record] sends exactly
    one INSERT whose first column is the primary key: the "No data to
    insert" branch is out of reach of the form. *)
Theorem create_form_always_inserts table_name fields entry w :
  mysql_connect drv = ConnectOk ->
  dict_get table_fields table_name = Some fields ->
  entries_fit create_widget fields entry = true ->
  let kept := filter_inputs (create_form_inputs fields entry) in
  exists pk w',
    dict_get primary_keys table_name = Some pk /\
    hd_error kept = Some (pk, entry pk) /\
    (forall field, In field fields -> create_widget field <> TextInput ->
                   In (field, entry field) kept) /\
    (forall field, In field fields -> create_widget field = TextInput ->
                   (In (field, entry field) kept <-> entry field <> VStr "")) /\
    submit_create drv table_name entry w = (Ret tt, w') /\
    sent (trace w') = sent (trace w) ++ [(insert_sql table_name kept, Some (values kept))].
Proof.
  intros Hc Hf Hfit kept.
  destruct (table_fields_shape table_name fields Hf) as (pk & rest & -> & Hpk & Hnd & Hw).
  assert (Hk : kept = List.map (fun f => (f, entry f))
                   (List.filter (fun f => negb (is_blank (entry f))) (pk :: rest))).
  { subst kept. by rewrite create_form_inputs_map, filter_inputs_map. }
  unfold entries_fit in Hfit. rewrite forallb_forall in Hfit.
  assert (Hpkb : is_blank (entry pk) = false).
  { apply (number_from_one_kept 1); [lia |]. rewrite <- Hw. apply Hfit. by left. }
  assert (Hin : forall f, In (f, entry f) kept <->
                          In f (pk :: rest) /\ is_blank (entry f) = false).
  { intros f. rewrite Hk, In_entry_map, List.filter_In, negb_true_iff. tauto. }
  assert (Hhd : hd_error kept = Some (pk, entry pk)).
  { rewrite Hk. simpl. by rewrite Hpkb. }
  exists pk.
  destruct (create_record_sends_insert table_name
              (create_form_inputs (pk :: rest) entry) w Hc) as (w' & Hrun & Hsent).
  { fold kept. intros E. by rewrite E in Hhd. }
  exists w'. split; [exact Hpk |]. split; [exact Hhd |]. split; [| split; [| split]].
  - intros f Hf' Hwd. apply Hin. split; [exact Hf' |].
    specialize (Hfit f Hf'). unfold create_widget in *.
    destruct (py_str_in "ID" f || py_str_in "Quantity" f).
    + by apply (number_from_one_kept 1).
    + destruct (py_str_in "Date" f); [by apply date_kept | done].
  - intros f Hf' Hwd. rewrite Hin. specialize (Hfit f Hf'). rewrite Hwd in Hfit.
    rewrite (text_kept_iff _ Hfit). tauto.
  - unfold submit_create, dict_item, bind, ret. rewrite Hf, Hpk. exact Hrun.
  - exact Hsent.
Qed.

Lemma update_record_warns_nothing table_name pk record_id inputs w :
  mysql_connect drv = ConnectOk ->
  dict_get primary_keys table_name = Some pk ->
  filter_inputs inputs = [] ->
  exists w',
    update_record drv table_name record_id inputs w = (Ret tt, w') /\
    sent (trace w') = sent (trace w) /\
    reports (trace w') = reports (trace w) ++ [warning_report "No fields to update"].
Proof.
  intros Hc Hk Hf. eexists. split; [by eapply update_record_nothing |].
  rewrite trace_after, sent_app, reports_app. simpl. by rewrite app_nil_r.
Qed.

(** X10: the "Update" form never puts the primary key among the fields to
    set, and a date field always survives the filtering, because a date
    widget cannot be left empty.  So on [Food_Listings] and [Claims] every
    submitted update sends an UPDATE that sets the date column, even when
    no field was touched; "No fields to update" is reported only when
    nothing survives, and then nothing is sent. *)
Theorem update_form_keeps_key_sets_date table_name fields record_id entry w :
  mysql_connect drv = ConnectOk ->
  dict_get table_fields table_name = Some fields ->
  entries_fit update_widget fields entry = true ->
  exists pk,
    dict_get primary_keys table_name = Some pk /\
    let kept := filter_inputs (update_form_inputs fields pk entry) in
    ~ In pk (keys kept) /\
    (forall field, In field fields -> field <> pk -> update_widget field = DateInput ->
                   In (field, entry field) kept) /\
    (table_name = "Food_Listings" \/ table_name = "Claims" -> kept <> []) /\
    (kept <> [] ->
     exists w',
       submit_update drv table_name record_id entry w = (Ret tt, w') /\
       sent (trace w') =
         sent (trace w) ++
         [(update_sql table_name pk kept, Some (values kept ++ [record_id]))]) /\
    (kept = [] ->
     exists w',
       submit_update drv table_name record_id entry w = (Ret tt, w') /\
       sent (trace w') = sent (trace w) /\
       reports (trace w') = reports (trace w) ++ [warning_report "No fields to update"]).
Proof.
  intros Hc Hf Hfit.
  destruct (table_fields_shape table_name fields Hf) as (pk & rest & Hfs & Hpk & Hnd & _).
  exists pk. split; [exact Hpk |]. intros kept.
  assert (Hk : kept = List.map (fun f => (f, entry f))
                   (List.filter (fun f => negb (is_blank (entry f)))
                      (List.filter (fun f => negb (String.eqb f pk)) fields))).
  { subst kept. by rewrite update_form_inputs_map, filter_inputs_map. }
  unfold entries_fit in Hfit. rewrite forallb_forall in Hfit.
  assert (Hin : forall f, In (f, entry f) kept <->
                          In f fields /\ f <> pk /\ is_blank (entry f) = false).
  { intros f. rewrite Hk, In_entry_map, !List.filter_In, !negb_true_iff.
    rewrite String.eqb_neq. tauto. }
  assert (Hdate : forall f, In f fields -> f <> pk -> update_widget f = DateInput ->
                            In (f, entry f) kept).
  { intros f Hf' Hne Hwd. apply Hin. repeat split; try done.
    apply date_kept. rewrite <- Hwd. by apply Hfit. }
  assert (Hrun : forall w0,
             submit_update drv table_name record_id entry w0 =
             update_record drv table_name record_id (update_form_inputs fields pk entry) w0).
  { intros w0. unfold submit_update, dict_item, bind, ret. by rewrite Hf, Hpk. }
  split; [| split; [exact Hdate | split; [| split]]].
  - unfold keys. rewrite Hk, List.map_map. simpl. rewrite List.map_id.
    intros Hbad. apply List.filter_In in Hbad as [Hbad _].
    apply List.filter_In in Hbad as [_ Hbad]. by rewrite String.eqb_refl in Hbad.
  - intros Htab.
    assert (Hd : exists d, In d fields /\ d <> pk /\ update_widget d = DateInput).
    { clear - Htab Hf Hpk. destruct Htab as [-> | ->];
        vm_compute in Hf; vm_compute in Hpk;
        injection Hf as <-; injection Hpk as <-.
      - exists "Expiry_Date". split; [simpl; tauto | split; [discriminate | reflexivity]].
      - exists "Claim_Date". split; [simpl; tauto | split; [discriminate | reflexivity]]. }
    destruct Hd as (d & Hd1 & Hd2 & Hd3). intros E.
    pose proof (Hdate d Hd1 Hd2 Hd3) as Hkept. by rewrite E in Hkept.
  - intros Hne. rewrite Hrun. by apply (update_record_sends_update table_name pk).
  - intros He. rewrite Hrun. by apply (update_record_warns_nothing table_name pk).
Qed.

End FormProps.

(** ** The catalogue and the analysis page *)

(** X11: the analysis page offers exactly the names of the catalogue, in
    its order; and every chart rule belongs to a name of the catalogue and
    names, for its axes, only columns that occur in the text of that
    query. *)
Theorem catalogue_consistent :
  query_options = List.map fst queries /\
  (forall name rule df,
     dict_get charts name = Some rule ->
     exists sql,
       dict_get queries name = Some sql /\
       py_str_in (chart_x (rule df)) sql = true /\
       forallb (fun y => py_str_in y sql) (chart_y (rule df)) = true).
Proof.
  split; [reflexivity |].
  intros name rule df. unfold charts. rewrite !dict_get_cons.
  repeat match goal with
         | |- context [String.eqb ?a name] =>
             destruct (String.eqb_spec a name) as [<- | ?]
         end; intros [= <-].
  all: eexists; split; [reflexivity | split; reflexivity].
Qed.

Section CatalogueMore.

Context {Store : Type} (drv : Driver Store).

(** X12: [analysis_query] never writes: on every path the database is as
    before and nothing is committed.  On a name that is not in the
    catalogue it returns [(None, None)] at once: no connection is opened,
    nothing is sent, nothing is reported. *)
Theorem analysis_query_read_only name param w :
  let r := analysis_query drv name param w in
  db (snd r) = db w /\
  commits (trace (snd r)) = commits (trace w) /\
  (dict_get queries name = None -> r = (Ret (None, None), w)).
Proof.
  simpl. unfold analysis_query.
  destruct (dict_get queries name) as [sql | ]; [| by repeat split].
  unfold bind.
  pose proof (run_query_effects drv sql (if truthy param then Some [param] else None) w)
    as (Hdb & Hc & _).
  simpl in Hdb, Hc.
  destruct (run_query drv sql (if truthy param then Some [param] else None) w)
    as [[df | r] w']; simpl in *; by repeat split.
Qed.

End CatalogueMore.

(** ** The SQL playground *)





Ltac page_simpl :=
  repeat (progress (simpl; rewrite ?drop_app_length, ?drop_all)).

Ltac trace_norm :=
  rewrite <- ?app_assoc, ?sent_app, ?reports_app, ?shown_app, ?shown_core; simpl;
  rewrite ?app_nil_r.

Section Playground.

Context {Store : Type} (drv : Driver Store).




End Playground.

(** ** The contact page and the analysis page *)

Section ContactAndAnalysis.

Context {Store : Type} (drv : Driver Store).

(** X16: the contact page sends one of two fixed texts, the one on
    Providers exactly for the entity "Provider", with the id bound as its
    only parameter (the text has one slot).  A result with rows is shown
    under "Contact Details"; an empty result is reported as "No <entity>
    found with ID <id>"; and a failing query is reported twice, as "Query
    Error" and as "No <entity> found", because the page cannot tell it
    from an empty result. *)
Theorem contact_page_outcomes entity entity_id p :
  mysql_connect drv = ConnectOk ->
  let sql := if String.eqb entity "Provider" then provider_contact_sql
             else receiver_contact_sql in
  exists p',
    contact_button drv entity entity_id p = (Ret tt, p') /\
    sent (trace (world p')) = sent (trace (world p)) ++ [(sql, Some [entity_id])] /\
    count_slots sql = 1%nat /\
    db (world p') = db (world p) /\
    (forall df,
       read_sql drv (db (world p)) sql (Some [entity_id]) = ReadOk df ->
       (df_empty df = false ->
        shown (screen p') = shown (screen p) ++ [Subheader "Contact Details"; Dataframe df] /\
        reports (trace (world p')) = reports (trace (world p))) /\
       (df_empty df = true ->
        shown (screen p') = shown (screen p) /\
        reports (trace (world p')) =
          reports (trace (world p)) ++ [contact_missing_report entity entity_id])) /\
    (forall e,
       read_sql drv (db (world p)) sql (Some [entity_id]) = ReadRaise e ->
       shown (screen p') = shown (screen p) /\
       reports (trace (world p')) =
         reports (trace (world p)) ++
         [query_error_report e; contact_missing_report entity entity_id]).
Proof.
  intros Hc sql. unfold contact_button. fold sql. unfold bind, show.
  assert (Hslot : count_slots sql = 1%nat).
  { subst sql. by destruct (String.eqb entity "Provider"). }
  destruct (read_sql drv (db (world p)) sql (Some [entity_id])) as [df | e] eqn:Hr.
  - rewrite (core_run (run_query drv sql (Some [entity_id])) p _ _ _
               (run_query_success drv sql (Some [entity_id]) (world p) df Hc Hr) eq_refl).
    destruct (df_empty df) eqn:Hde; simpl.
    + unfold core, st_error, emit. page_simpl.
      eexists. split; [reflexivity |]. simpl. trace_norm.
      do 3 (split; [done |]). split; [| intros ? [=]].
      intros df0 [= <-]. rewrite Hde. split; intros E; first [discriminate E | by split].
    + eexists. split; [reflexivity |]. simpl. trace_norm.
      do 3 (split; [done |]). split; [| intros ? [=]].
      intros df0 [= <-]. rewrite Hde. split; intros E; first [discriminate E | by split].
  - rewrite (core_run (run_query drv sql (Some [entity_id])) p _ _ _
               (run_query_error drv sql (Some [entity_id]) (world p) e Hc Hr) eq_refl).
    simpl. unfold core, st_error, emit. page_simpl.
    eexists. split; [reflexivity |]. simpl. trace_norm.
    do 3 (split; [done |]). split; [intros ? [=] |].
    intros e0 [= <-]. by split.
Qed.

Lemma world_core {A : Type} (m : M (World Store) A) (p : Page Store) :
  world (snd (core m p)) = snd (m (world p)).
Proof. unfold core. by destruct (m (world p)). Qed.

(** What the analysis page does once [analysis_query] has answered. *)
Lemma run_analysis_button_known selected_query city sql df w' p :
  dict_get queries selected_query = Some sql ->
  run_query drv sql (if truthy (analysis_param selected_query city)
                     then Some [analysis_param selected_query city] else None)
            (world p) = (Ret df, w') ->
  exists p',
    run_analysis_button drv selected_query city p = (Ret tt, p') /\
    sent (trace (world p')) = sent (trace w') /\
    db (world p') = db w' /\
    (df_empty df = true ->
     shown (screen p') = shown (screen p) ++ [Spinner "Running analysis..."] /\
     reports (trace (world p')) = reports (trace w') ++ [no_analysis_data_report]) /\
    (df_empty df = false ->
     reports (trace (world p')) = reports (trace w') /\
     shown (screen p') =
       shown (screen p) ++
       [Spinner "Running analysis..."; Subheader "Results"; Dataframe df] ++
       match dict_get charts selected_query with
       | Some rule => [PlotlyChart (ChartFigure (rule df))]
       | None => []
       end).
Proof.
  intros Hq Hr. unfold run_analysis_button, bind, show, core. simpl.
  rewrite (analysis_query_known drv selected_query sql _ (world p) df w' Hq Hr). simpl.
  destruct (df_empty df) eqn:Hde; simpl.
  - unfold st_warning, emit. page_simpl.
    eexists. split; [reflexivity |]. simpl. trace_norm.
    do 2 (split; [done |]). split; intros E; first [discriminate E | by split].
  - destruct (dict_get charts selected_query) as [rule | ]; simpl.
    all: eexists; (split; [reflexivity |]); simpl; trace_norm.
    all: do 2 (split; [done |]); split; intros E; first [discriminate E | by split].
Qed.

(** X17: from the analysis page a parameter is bound only to the one
    template that has a slot, and then it is the city typed in.  The page
    runs a template with a slot but no parameter in exactly one case: the
    query "Provider Contact Info by City" with the city left empty. *)
Theorem analysis_page_parameter selected_query city p :
  mysql_connect drv = ConnectOk ->
  In selected_query query_options ->
  exists sql params,
    dict_get queries selected_query = Some sql /\
    sent (trace (world (snd (run_analysis_button drv selected_query city p))))
      = sent (trace (world p)) ++ [(sql, params)] /\
    (forall ps, params = Some ps -> expects_param sql = true /\ ps = [VStr city]) /\
    (expects_param sql = true /\ params = None <->
     selected_query = "Provider Contact Info by City" /\ city = "").
Proof.
  intros Hc Hin.
  assert (Hq : exists sql, dict_get queries selected_query = Some sql /\
                 (expects_param sql = true <->
                  selected_query = "Provider Contact Info by City")).
  { unfold query_options in Hin. simpl in Hin.
    repeat (destruct Hin as [<- | Hin];
            [eexists; split; [reflexivity |]; split; [try discriminate | ]; done |]).
    destruct Hin. }
  destruct Hq as (sql & Hq & Hexp). exists sql.
  set (param := analysis_param selected_query city).
  exists (if truthy param then Some [param] else None).
  destruct (run_query_returns drv sql (if truthy param then Some [param] else None)
              (world p) Hc) as (df & w' & Hr & Hs).
  destruct (run_analysis_button_known selected_query city sql df w' p Hq Hr)
    as (p' & Hrun & Hsent & _).
  rewrite Hrun. simpl. rewrite Hsent, Hs.
  split; [exact Hq |]. split; [reflexivity |].
  subst param. unfold analysis_param.
  destruct (String.eqb_spec selected_query "Provider Contact Info by City") as [E | E].
  - simpl. destruct (String.eqb_spec city "") as [-> | Hne]; simpl.
    + split; [intros ? [=] |]. split; [by intros _ | intros _; split; [by apply Hexp | done]].
    + split.
      * intros ps [= <-]. split; [by apply Hexp | done].
      * split; [intros [_ [=]] | intros [_ ?]; done].
  - simpl. split; [intros ? [=] |]. split.
    + intros [He _]. by apply Hexp in He.
    + intros [? _]. done.
Qed.


End ContactAndAnalysis.

(** ** The properties at concrete inputs *)

Lemma create_record_all_or_nothing_witness :
  (exists w',
     create_record no_match_driver "Providers" demo_inputs (world_of demo_store)
       = (Ret tt, w') /\
     db w' = demo_store /\
     reports (trace w') = [created_report "Providers"]) /\
  (exists w',
     create_record demo_driver "Providers" demo_inputs (world_of demo_store) = (Ret tt, w') /\
     db w' = demo_store /\
     commits (trace w') = 0%nat).
Proof.
  split.
  - destruct (create_record_all_or_nothing no_match_driver "Providers" demo_inputs
                (world_of demo_store) eq_refl) as [H _]; [discriminate |].
    destruct (H demo_store 0 eq_refl) as (w' & H1 & H2 & _ & H4).
    exists w'. split; [exact H1 | split; [exact H2 | exact H4]].
  - destruct (create_record_all_or_nothing demo_driver "Providers" demo_inputs
                (world_of demo_store) eq_refl) as [_ H]; [discriminate |].
    destruct (H _ eq_refl) as (w' & H1 & H2 & H3 & _).
    exists w'. split; [exact H1 | split; [exact H2 | exact H3]].
Defined.

Lemma update_record_outcomes_witness :
  exists w' r,
    update_record no_match_driver "Providers" (VInt 7) demo_inputs (world_of demo_store)
      = (Ret tt, w') /\
    db w' = demo_store /\
    reports (trace w') = [r] /\
    (r = not_found_report "Provider_ID" (VInt 7) <-> 0 <= 0).
Proof.
  destruct (update_record_outcomes no_match_driver "Providers" "Provider_ID" (VInt 7)
              demo_inputs (world_of demo_store) eq_refl eq_refl) as [H _];
    [discriminate |].
  destruct (H demo_store 0 eq_refl) as (w' & r & H1 & H2 & _ & H4 & _ & H6).
  exists w', r. split; [exact H1 | split; [exact H2 | split; [exact H4 | exact H6]]].
Defined.

Lemma delete_other_table_single_statement_witness :
  sent (trace (snd (delete_record no_match_driver "Providers" (VInt 7)
                                  (world_of demo_store))))
    = [("DELETE FROM Providers WHERE Provider_ID=%s", Some [VInt 7])].
Proof.
  assert (Hne : "Providers" <> "Food_Listings") by discriminate.
  destruct (delete_other_table_single_statement no_match_driver "Providers" "Provider_ID"
              (VInt 7) (world_of demo_store) eq_refl eq_refl Hne) as (_ & H & _).
  exact H.
Defined.

Lemma slots_match_parameters_witness :
  exists issued,
    sent (trace (snd (create_record demo_driver "Providers" demo_inputs
                                    (world_of demo_store)))) = issued /\
    forall sql params,
      In (sql, params) issued -> exists ps, params = Some ps /\ count_slots sql = length ps.
Proof.
  destruct (slots_match_parameters demo_driver "Providers" (VInt 101) demo_inputs
              (world_of demo_store) eq_refl eq_refl
              (create_record demo_driver "Providers" demo_inputs))
    as (issued & Hs & Hi); [by left |].
  exists issued. split; [exact Hs | exact Hi].
Defined.

Lemma create_form_always_inserts_witness :
  exists w',
    submit_create demo_driver "Food_Listings" (untouched_entry create_widget)
                  (world_of demo_store) = (Ret tt, w') /\
    sent (trace w') =
      [("INSERT INTO Food_Listings (Food_ID, Quantity, Expiry_Date, Provider_ID) VALUES (%s, %s, %s, %s)",
        Some [VInt 1; VInt 1; VDate 2025 1 31; VInt 1])].
Proof.
  destruct (create_form_always_inserts demo_driver "Food_Listings" food_listing_fields
              (untouched_entry create_widget) (world_of demo_store)
              eq_refl eq_refl eq_refl) as (pk & w' & _ & _ & _ & _ & Hrun & Hsent).
  exists w'. split; [exact Hrun | exact Hsent].
Defined.

Lemma update_form_keeps_key_sets_date_witness :
  exists w',
    submit_update demo_driver "Food_Listings" (VInt 1) (untouched_entry update_widget)
                  (world_of demo_store) = (Ret tt, w') /\
    sent (trace w') =
      [("UPDATE Food_Listings SET Expiry_Date=%s WHERE Food_ID=%s",
        Some [VDate 2025 1 31; VInt 1])].
Proof.
  destruct (update_form_keeps_key_sets_date demo_driver "Food_Listings" food_listing_fields
              (VInt 1) (untouched_entry update_widget) (world_of demo_store)
              eq_refl eq_refl eq_refl) as (pk & Hpk & _ & _ & _ & H & _).
  injection Hpk as <-.
  destruct H as (w' & Hrun & Hsent); [discriminate |].
  exists w'. split; [exact Hrun | exact Hsent].
Defined.



Lemma contact_page_outcomes_witness :
  exists p',
    contact_button demo_driver "Provider" (VInt 1) (page_of (world_of demo_store))
      = (Ret tt, p') /\
    sent (trace (world p')) = [(provider_contact_sql, Some [VInt 1])] /\
    reports (trace (world p')) =
      [query_error_report (MySQLError "Not all parameters were used in the SQL statement");
       contact_missing_report "Provider" (VInt 1)].
Proof.
  destruct (contact_page_outcomes demo_driver "Provider" (VInt 1)
              (page_of (world_of demo_store)) eq_refl)
    as (p' & H1 & H2 & _ & _ & _ & H3).
  exists p'. split; [exact H1 |]. split; [exact H2 |].
  exact (proj2 (H3 _ eq_refl)).
Defined.

Lemma analysis_page_parameter_witness :
  exists sql params,
    dict_get queries "Provider Contact Info by City" = Some sql /\
    sent (trace (world (snd (run_analysis_button demo_driver "Provider Contact Info by City"
                                                 "" (page_of (world_of demo_store))))))
      = [(sql, params)] /\
    (expects_param sql = true /\ params = None <->
     "Provider Contact Info by City" = "Provider Contact Info by City" /\ "" = "").
Proof.
  destruct (analysis_page_parameter demo_driver "Provider Contact Info by City" ""
              (page_of (world_of demo_store)) eq_refl)
    as (sql & params & H1 & H2 & _ & H4).
  { unfold query_options. simpl. tauto. }
  exists sql, params. split; [exact H1 |]. split; [exact H2 | exact H4].
Defined.

